(** * cdn/serve.py: session tokens, webhook authentication and file serving

    A shallow embedding of [src/cdn/serve.py] and of the parts of the Python
    standard library its handlers rely on ([str] methods, [hmac], [hashlib],
    [os.path], [subprocess]), followed by the properties of the
    handlers.

    Conventions.
    - A Python [str] is a [string]; each character is a code point below 256.
      This is exactly the range of the strings Starlette hands to the
      handlers for cookies and headers (they are decoded as latin-1).
      Code points 128..255 are the non-ASCII ones; the higher code points a
      JSON body can carry are not represented.
    - Python [bytes] are [list byte].
    - 32-bit words of SHA-256 are [Z] with the wrap-around written out.
    - A Python call that may raise returns a [result]. *)

From stdpp Require Import gmap strings sorting.
From Stdlib Require Import ZArith NArith List Ascii String Strings.Byte Bool Lia.
From Stdlib Require Import Sorting.Mergesort Sorting.Sorted Sorting.Permutation.
From Stdlib Require Import Orders.
Import ListNotations.

#[local] Set Warnings "-register-all".
#[local] Open Scope string_scope.

(** ** Exceptions *)

(** A raised Python exception: its class and the text [str(e)] gives. *)
Record exn := Exn { exn_class : string; exn_text : string }.

Inductive result (A : Type) : Type :=
| Ok (a : A)
| Raise (e : exn).
Arguments Ok {A} a.
Arguments Raise {A} e.

Definition TypeError (msg : string) : exn := Exn "TypeError" msg.
Definition ValueError (msg : string) : exn := Exn "ValueError" msg.
Definition AttributeError (msg : string) : exn := Exn "AttributeError" msg.
Definition JSONDecodeError (msg : string) : exn := Exn "JSONDecodeError" msg.

Definition result_bind {A B} (r : result A) (k : A -> result B) : result B :=
  match r with
  | Ok a => k a
  | Raise e => Raise e
  end.

(** [try: body except Exception: handler] *)
Definition try_except {A} (body : result A) (handler : exn -> result A) : result A :=
  match body with
  | Ok a => Ok a
  | Raise e => handler e
  end.

(** ** Python [str] and [bytes] *)

Module PyStr.

Definition bytes := list byte.

Definition code_point (c : ascii) : Z := Z.of_N (N_of_ascii c).

Definition byte_to_Z (b : byte) : Z := Z.of_N (Byte.to_N b).

Definition Z_to_byte (z : Z) : byte :=
  match Byte.of_N (Z.to_N (z mod 256)) with
  | Some b => b
  | None => x00
  end.

(** [s.encode()]: UTF-8. A code point below 128 is one byte, one in
    128..255 is two. *)
Definition encode_char (c : ascii) : bytes :=
  let n := code_point c in
  if (n <? 128)%Z then [Z_to_byte n]
  else [Z_to_byte (Z.lor 192 (Z.shiftr n 6)); Z_to_byte (Z.lor 128 (Z.land n 63))].

Fixpoint encode (s : string) : bytes :=
  match s with
  | EmptyString => []
  | String c r => (encode_char c ++ encode r)%list
  end.

Definition is_ascii_char (c : ascii) : bool := (code_point c <? 128)%Z.

(** [s.isascii()] *)
Fixpoint isascii (s : string) : bool :=
  match s with
  | EmptyString => true
  | String c r => is_ascii_char c && isascii r
  end.

(** [s.startswith(p)] *)
Fixpoint startswith (s p : string) {struct p} : bool :=
  match p with
  | EmptyString => true
  | String b p' =>
      match s with
      | EmptyString => false
      | String a s' => Ascii.eqb a b && startswith s' p'
      end
  end.

(** [s.endswith(c)] for a one-character argument. *)
Fixpoint endswith (s : string) (c : ascii) : bool :=
  match s with
  | EmptyString => false
  | String a EmptyString => Ascii.eqb a c
  | String _ r => endswith r c
  end.

(** [sub in s] *)
Fixpoint contains (sub s : string) : bool :=
  startswith s sub ||
  match s with
  | EmptyString => false
  | String _ r => contains sub r
  end.

(** [s.lstrip(c)] for a one-character argument. *)
Fixpoint lstrip (c : ascii) (s : string) : string :=
  match s with
  | EmptyString => EmptyString
  | String a r => if Ascii.eqb a c then lstrip c r else s
  end.

(** [s.rstrip(c)] for a one-character argument. *)
Fixpoint rstrip (c : ascii) (s : string) : string :=
  match s with
  | EmptyString => EmptyString
  | String a r =>
      match rstrip c r with
      | EmptyString => if Ascii.eqb a c then EmptyString else String a EmptyString
      | r' => String a r'
      end
  end.

(** [s.split(sep)] for a one-character separator: never empty. *)
Fixpoint split (sep : ascii) (s : string) : list string :=
  match s with
  | EmptyString => [EmptyString]
  | String a r =>
      if Ascii.eqb a sep then EmptyString :: split sep r
      else match split sep r with
           | x :: xs => String a x :: xs
           | [] => [String a EmptyString]
           end
  end.

(** [s.rsplit(sep, 1)] for a one-character separator: cut at the last
    occurrence; one element when there is none. *)
Fixpoint rsplit1 (sep : ascii) (s : string) : list string :=
  match s with
  | EmptyString => [EmptyString]
  | String a r =>
      match rsplit1 sep r with
      | [d; g] => [String a d; g]
      | _ => if Ascii.eqb a sep then [EmptyString; r] else [s]
      end
  end.

(** [sep.join(l)] *)
Fixpoint join (sep : string) (l : list string) : string :=
  match l with
  | [] => EmptyString
  | [x] => x
  | x :: xs => x ++ sep ++ join sep xs
  end.

(** [s[:n]] *)
Fixpoint take (n : nat) (s : string) : string :=
  match n, s with
  | S n', String a r => String a (take n' r)
  | _, _ => EmptyString
  end.

Definition hex_digit (n : Z) : ascii :=
  if (n <? 10)%Z then ascii_of_N (Z.to_N (48 + n)) else ascii_of_N (Z.to_N (87 + n)).

Definition hex_byte (b : byte) : string :=
  let n := byte_to_Z b in
  String (hex_digit (n / 16)) (String (hex_digit (n mod 16)) EmptyString).

(** [b.hex()] *)
Fixpoint hexlify (b : bytes) : string :=
  match b with
  | [] => EmptyString
  | x :: r => hex_byte x ++ hexlify r
  end.

(** An ASCII character other than the dot, as the hexadecimal digits are. *)
Definition is_hex_char (c : ascii) : bool :=
  is_ascii_char c && negb (Ascii.eqb c ".").

(** The double-quote character, for building HTML attributes. *)
Definition dquote : string := String "034"%char EmptyString.

(** Truthiness of a [str]. *)
Definition truthy (s : string) : bool :=
  match s with
  | EmptyString => false
  | _ => true
  end.

End PyStr.
Import PyStr.

(** ** [hashlib.sha256] (FIPS 180-4) *)

Module SHA256.

#[local] Open Scope list_scope.
#[local] Open Scope Z_scope.

Definition wrap (x : Z) : Z := x mod 2 ^ 32.
Definition add32 (x y : Z) : Z := wrap (x + y).
Definition rotr (n x : Z) : Z := Z.lor (Z.shiftr x n) (wrap (Z.shiftl x (32 - n))).
Definition shr (n x : Z) : Z := Z.shiftr x n.
Definition not32 (x : Z) : Z := Z.lxor x 0xffffffff.

Definition Ch (x y z : Z) : Z := Z.lxor (Z.land x y) (Z.land (not32 x) z).
Definition Maj (x y z : Z) : Z :=
  Z.lxor (Z.lxor (Z.land x y) (Z.land x z)) (Z.land y z).
Definition Sigma0 (x : Z) : Z := Z.lxor (Z.lxor (rotr 2 x) (rotr 13 x)) (rotr 22 x).
Definition Sigma1 (x : Z) : Z := Z.lxor (Z.lxor (rotr 6 x) (rotr 11 x)) (rotr 25 x).
Definition sigma0 (x : Z) : Z := Z.lxor (Z.lxor (rotr 7 x) (rotr 18 x)) (shr 3 x).
Definition sigma1 (x : Z) : Z := Z.lxor (Z.lxor (rotr 17 x) (rotr 19 x)) (shr 10 x).

(** The largest [r] below [2 ^ bits] with [r ^ k <= n], found bit by bit. *)
Fixpoint root_floor (k n : Z) (bits : nat) (r : Z) : Z :=
  match bits with
  | O => r
  | S b =>
      let c := r + 2 ^ Z.of_nat b in
      root_floor k n b (if c ^ k <=? n then c else r)
  end.

Definition is_prime (n : Z) : bool :=
  forallb (fun d => negb (n mod Z.of_nat d =? 0)) (seq 2 (Z.to_nat n - 2)).

(** The first sixty-four primes: 2, 3, 5, ..., 311. *)
Definition primes : list Z :=
  Eval vm_compute in List.filter is_prime (map Z.of_nat (seq 2 310)).

(** The round constants (FIPS 180-4, 4.2.2): the first thirty-two bits of
    the fractional parts of the cube roots of the first sixty-four primes;
    the first is [0x428a2f98], the last [0xc67178f2]. *)
Definition K : list Z :=
  Eval vm_compute in map (fun p => wrap (root_floor 3 (p * 2 ^ 96) 40 0)) primes.

(** The eight working variables, also the intermediate hash value. *)
Record state := State { sa : Z; sb : Z; sc : Z; sd : Z; se : Z; sf : Z; sg : Z; sh : Z }.

(** The initial hash value (FIPS 180-4, 5.3.3): the first thirty-two bits
    of the fractional parts of the square roots of the first eight primes;
    the first is [0x6a09e667], the last [0x5be0cd19]. *)
Definition initial_word (i : nat) : Z :=
  wrap (root_floor 2 (nth i primes 0 * 2 ^ 64) 40 0).

Definition H0 : state :=
  Eval vm_compute in
    State (initial_word 0) (initial_word 1) (initial_word 2) (initial_word 3)
          (initial_word 4) (initial_word 5) (initial_word 6) (initial_word 7).

(** Padding: the bit 1, zeros up to 56 mod 64 bytes, the bit length on 64 bits. *)
Definition be_bytes (n : nat) (x : Z) : list Z :=
  map (fun i => Z.shiftr x (8 * Z.of_nat i) mod 256) (rev (seq 0 n)).

Definition pad (msg : list Z) : list Z :=
  let l := Z.of_nat (List.length msg) in
  msg ++ [128] ++ repeat 0 (Z.to_nat ((55 - l) mod 64)) ++ be_bytes 8 (8 * l).

Fixpoint words (bs : list Z) : list Z :=
  match bs with
  | b0 :: b1 :: b2 :: b3 :: r =>
      (Z.shiftl b0 24 + Z.shiftl b1 16 + Z.shiftl b2 8 + b3) :: words r
  | _ => []
  end.

(** The message schedule, kept newest first: the head is W(t-1). *)
Fixpoint extend (n : nat) (rw : list Z) : list Z :=
  match n with
  | O => rw
  | S n' =>
      let w := add32 (add32 (sigma1 (nth 1 rw 0)) (nth 6 rw 0))
                     (add32 (sigma0 (nth 14 rw 0)) (nth 15 rw 0)) in
      extend n' (w :: rw)
  end.

Definition schedule (block : list Z) : list Z := rev (extend 48 (rev block)).

Definition round (s : state) (kw : Z * Z) : state :=
  let '(k, w) := kw in
  let t1 := add32 (add32 (add32 (add32 (sh s) (Sigma1 (se s))) (Ch (se s) (sf s) (sg s))) k) w in
  let t2 := add32 (Sigma0 (sa s)) (Maj (sa s) (sb s) (sc s)) in
  State (add32 t1 t2) (sa s) (sb s) (sc s) (add32 (sd s) t1) (se s) (sf s) (sg s).

Definition compress (h : state) (block : list Z) : state :=
  let s := fold_left round (combine K (schedule block)) h in
  State (add32 (sa h) (sa s)) (add32 (sb h) (sb s)) (add32 (sc h) (sc s))
        (add32 (sd h) (sd s)) (add32 (se h) (se s)) (add32 (sf h) (sf s))
        (add32 (sg h) (sg s)) (add32 (sh h) (sh s)).

(** One 16-word block at a time; [n] bounds the number of blocks. *)
Fixpoint blocks (n : nat) (h : state) (ws : list Z) : state :=
  match n, ws with
  | S n', _ :: _ => blocks n' (compress h (firstn 16 ws)) (skipn 16 ws)
  | _, _ => h
  end.

Definition word_bytes (w : Z) : bytes :=
  [ Z_to_byte (Z.shiftr w 24); Z_to_byte (Z.shiftr w 16);
    Z_to_byte (Z.shiftr w 8); Z_to_byte w ].

Definition state_bytes (s : state) : bytes :=
  word_bytes (sa s) ++ word_bytes (sb s) ++ word_bytes (sc s) ++ word_bytes (sd s) ++
  word_bytes (se s) ++ word_bytes (sf s) ++ word_bytes (sg s) ++ word_bytes (sh s).

(** [hashlib.sha256(msg).digest()] *)
Definition digest (msg : bytes) : bytes :=
  let ws := words (pad (map byte_to_Z msg)) in
  state_bytes (blocks (List.length ws) H0 ws).

End SHA256.

(** ** [hmac] (RFC 2104 with SHA-256) *)

Module Hmac.

#[local] Open Scope list_scope.

Definition block_size : nat := 64.

Definition xor_byte (p : Z) (b : byte) : byte := Z_to_byte (Z.lxor (byte_to_Z b) p).

(** A key longer than a block is hashed first; then it is zero-padded to a block. *)
Definition block_key (key : bytes) : bytes :=
  let k := if (block_size <? List.length key)%nat then SHA256.digest key else key in
  k ++ repeat x00 (block_size - List.length k).

(** [hmac.new(key, msg, hashlib.sha256).digest()] *)
Definition digest (key msg : bytes) : bytes :=
  let k := block_key key in
  SHA256.digest (map (xor_byte 0x5c) k ++ SHA256.digest (map (xor_byte 0x36) k ++ msg)).

(** [hmac.new(key, msg, hashlib.sha256).hexdigest()] *)
Definition hexdigest (key msg : bytes) : string := hexlify (digest key msg).

(** The comparison loop of [hmac.compare_digest]: it runs over the whole
    right operand and accumulates the differences, without an early exit. *)
Fixpoint tscmp_loop (left right : list Z) (acc : Z) : Z :=
  match left, right with
  | l :: ls, r :: rs => tscmp_loop ls rs (Z.lor acc (Z.lxor l r))
  | _, _ => acc
  end.

Definition tscmp (a b : list Z) : bool :=
  let same := (List.length a =? List.length b)%nat in
  let left := if same then a else b in
  let acc := if same then 0%Z else 1%Z in
  (tscmp_loop left b acc =? 0)%Z.

Definition code_points (s : string) : list Z := map code_point (list_ascii_of_string s).

(** [hmac.compare_digest(a, b)] on two [str]: both must be ASCII. *)
Definition compare_digest (a b : string) : result bool :=
  if isascii a && isascii b then Ok (tscmp (code_points a) (code_points b))
  else Raise (TypeError "comparing strings with non-ASCII characters is not supported").

End Hmac.

(** ** [os.path] and the file system *)

Module OsPath.

(** A file-system tree. [Special] stands for everything that is neither a
    directory nor a regular file for [os.path.isdir] and [os.path.isfile]:
    a FIFO, a socket, a device, a dangling symbolic link. The order of the
    entries of a directory is the (arbitrary) order [os.listdir] returns.
    Symbolic links to existing targets and permissions are not modelled. *)
Inductive node : Type :=
| File
| Special
| Dir (entries : list (string * node)).

(** The tree and the working directory relative paths start from. *)
Record filesystem := { root : node; cwd : string }.

Fixpoint child (name : string) (entries : list (string * node)) : option node :=
  match entries with
  | [] => None
  | (n, x) :: r => if String.eqb n name then Some x else child name r
  end.

(** Path resolution, one component at a time; [anc] holds the ancestors
    of [cur], nearest first. Every component is looked up in a directory. *)
Fixpoint walk (anc : list node) (cur : node) (comps : list string) : option (list node * node) :=
  match comps with
  | [] => Some (anc, cur)
  | c :: rest =>
      match cur with
      | Dir entries =>
          if String.eqb c "" || String.eqb c "." then walk anc cur rest
          else if String.eqb c ".." then
            match anc with
            | [] => walk [] cur rest
            | p :: anc' => walk anc' p rest
            end
          else
            match child c entries with
            | Some n => walk (cur :: anc) n rest
            | None => None
            end
      | _ => None
      end
  end.

Definition components (fs : filesystem) (path : string) : list string :=
  ((if startswith path "/" then [] else split "/" (cwd fs)) ++ split "/" path)%list.

(** What [os.stat(path)] finds; the empty path names nothing. *)
Definition lookup (fs : filesystem) (path : string) : option node :=
  if truthy path then
    match walk [] (root fs) (components fs path) with
    | Some (_, n) => Some n
    | None => None
    end
  else None.

Definition isdir (fs : filesystem) (path : string) : bool :=
  match lookup fs path with
  | Some (Dir _) => true
  | _ => false
  end.

Definition isfile (fs : filesystem) (path : string) : bool :=
  match lookup fs path with
  | Some File => true
  | _ => false
  end.

Definition listdir (fs : filesystem) (path : string) : result (list string) :=
  match lookup fs path with
  | Some (Dir entries) => Ok (map fst entries)
  | Some _ => Raise (Exn "NotADirectoryError" path)
  | None => Raise (Exn "FileNotFoundError" path)
  end.

(** One step of [os.path.join(a, *p)]. *)
Definition join_step (path b : string) : string :=
  if startswith b "/" then b
  else if negb (truthy path) || endswith path "/" then path ++ b
       else path ++ "/" ++ b.

Definition join (a : string) (p : list string) : string := fold_left join_step p a.

(** [os.path.normpath]: the leading slashes kept (none, one, or two when
    there are exactly two), then the components with [""] and ["."]
    dropped and [".."] cancelling the component before it. [stack] is
    [new_comps], last component first. *)
Definition initial_slashes (path : string) : string :=
  if startswith path "/" then
    if startswith path "//" && negb (startswith path "///") then "//" else "/"
  else "".

Definition normpath_step (rooted : bool) (stack : list string) (comp : string) : list string :=
  if String.eqb comp "" || String.eqb comp "." then stack
  else
    if negb (String.eqb comp "..")
       || (negb rooted && match stack with [] => true | _ => false end)
       || match stack with top :: _ => String.eqb top ".." | [] => false end
    then comp :: stack
    else match stack with
         | _ :: rest => rest
         | [] => []
         end.

Definition normpath (path : string) : string :=
  if truthy path then
    let slashes := initial_slashes path in
    let new_comps := rev (fold_left (normpath_step (truthy slashes)) (split "/" path) []) in
    let path := slashes ++ PyStr.join "/" new_comps in
    if truthy path then path else "."
  else ".".

End OsPath.

(** ** The server *)

Module Serve.

(** *** Requests, responses, configuration *)

Inductive json : Type :=
| JNull
| JBool (b : bool)
| JNumber (n : Z)
| JString (s : string)
| JArray (l : list json)
| JObject (d : gmap string json).

(** What a handler reads from a Starlette [Request]. [req_json] is the
    outcome of [request.json()]: [None] when the body is absent or is not
    valid JSON, so that the call raises. Header names are lower case. *)
Record Request := {
  url_path : string;
  cookies : gmap string string;
  headers : gmap string string;
  body : bytes;
  req_json : option json
}.

Record Cookie := {
  cookie_key : string;
  cookie_value : string;
  cookie_path : string;
  cookie_httponly : bool;
  cookie_secure : bool;
  cookie_samesite : string;
  cookie_max_age : Z
}.

Inductive response : Type :=
| Response (content : string) (status_code : Z)
| JSONResponse (content : json) (status_code : Z) (set_cookie : list Cookie)
| HTMLResponse (html : string)
| FileResponse (path : string).

Definition status (r : response) : Z :=
  match r with
  | Response _ c => c
  | JSONResponse _ c _ => c
  | HTMLResponse _ => 200
  | FileResponse _ => 200
  end.

Record Config := {
  data_dir : string;
  repo_dir : string;
  password_hash : string;
  webhook_secret : string;
  port : Z
}.

(** *** Session tokens *)

(** [secrets.token_hex(nbytes)]: [entropy] is what the system random
    source yields. *)
Definition token_hex (nbytes : nat) (entropy : bytes) : string :=
  hexlify (firstn nbytes entropy).

(** [SESSION_SECRET = secrets.token_hex(32)], drawn once when the module is
    loaded; the functions below take it as a parameter. *)
Definition session_secret (entropy : bytes) : string := token_hex 32 entropy.

(** [hmac.new(SESSION_SECRET.encode(), data.encode(), hashlib.sha256).hexdigest()[:16]] *)
Definition signature (SESSION_SECRET data : string) : string :=
  take 16 (Hmac.hexdigest (encode SESSION_SECRET) (encode data)).

Definition create_session_token (SESSION_SECRET : string) (entropy : bytes) : string :=
  let data := token_hex 16 entropy in
  let sig := signature SESSION_SECRET data in
  data ++ "." ++ sig.

Definition verify_session_token (SESSION_SECRET : string) (token : option string)
  : result bool :=
  match token with
  | None => Ok false
  | Some token =>
      if negb (truthy token) || negb (contains "." token) then Ok false
      else
        match rsplit1 "." token with
        | [data; sig] =>
            let expected := signature SESSION_SECRET data in
            Hmac.compare_digest sig expected
        | _ => Raise (ValueError "not enough values to unpack")
        end
  end.

Definition get_session_token (request : Request) : option string :=
  cookies request !! "session".

(** *** Login *)

Definition login_page (config : Config) (request : Request) : result response :=
  Ok (FileResponse (OsPath.join (repo_dir config) ["cdn"; "login.html"])).

Definition request_json (request : Request) : result json :=
  match req_json request with
  | Some v => Ok v
  | None => Raise (JSONDecodeError "Expecting value")
  end.

(** [data.get(key, default)]: only a [dict] has the method. *)
Definition json_get (data : json) (key : string) (default : json) : result json :=
  match data with
  | JObject d => Ok (match d !! key with Some v => v | None => default end)
  | _ => Raise (AttributeError "object has no attribute 'get'")
  end.

(** [hmac.compare_digest] on what the request supplied: only a [str]
    can be compared with a [str]. *)
Definition compare_digest_value (a : json) (b : string) : result bool :=
  match a with
  | JString s => Hmac.compare_digest s b
  | _ => Raise (TypeError "unsupported operand types(s) or combination of types")
  end.

Definition session_cookie (token : string) : Cookie :=
  {| cookie_key := "session"; cookie_value := token; cookie_path := "/";
     cookie_httponly := true; cookie_secure := true; cookie_samesite := "none";
     cookie_max_age := 31536000 |}.

Definition login (config : Config) (SESSION_SECRET : string) (entropy : bytes)
    (request : Request) : result response :=
  let received_hash :=
    try_except
      (result_bind (request_json request) (fun data => json_get data "hash" (JString "")))
      (fun _ => Ok (JString "")) in
  result_bind received_hash (fun received_hash =>
  result_bind (compare_digest_value received_hash (password_hash config)) (fun matches =>
  if matches then
    let token := create_session_token SESSION_SECRET entropy in
    Ok (JSONResponse (JObject {[ "ok" := JBool true ]}) 200 [session_cookie token])
  else
    Ok (JSONResponse (JObject {[ "ok" := JBool false ]}) 401 []))).

(** *** Webhook *)

(** The processes the handler starts are the only effects a property below
    speaks of. [Ran argv]: [subprocess.run] was called and returned or
    raised; [Spawned argv]: [subprocess.Popen] started a detached process. *)
Inductive event : Type :=
| Ran (argv : list string)
| Spawned (argv : list string).

Inductive run_outcome : Type :=
| Exited (returncode : Z) (stderr : string)
| RunFails (e : exn).

(** What the operating system answers: how a command run to completion
    ends (within the timeout, or with the exception raised otherwise), and
    whether a program can be started. *)
Record world := {
  run_result : list string -> run_outcome;
  popen_result : list string -> option exn
}.

Record CompletedProcess := { returncode : Z; stderr : string }.

(** An effectful computation: it may raise and it extends the log. *)
Definition Eff (A : Type) : Type := list event -> result A * list event.

Definition ret {A} (a : A) : Eff A := fun log => (Ok a, log).

Definition raise {A} (e : exn) : Eff A := fun log => (Raise e, log).

Definition bind {A B} (m : Eff A) (k : A -> Eff B) : Eff B :=
  fun log =>
    match m log with
    | (Ok a, log') => k a log'
    | (Raise e, log') => (Raise e, log')
    end.

Definition lift {A} (r : result A) : Eff A := fun log => (r, log).

(** [try: body except Exception as e: handler e] *)
Definition try_ {A} (body : Eff A) (handler : exn -> Eff A) : Eff A :=
  fun log =>
    match body log with
    | (Ok a, log') => (Ok a, log')
    | (Raise e, log') => handler e log'
    end.

Definition emit (ev : event) : Eff unit := fun log => (Ok tt, (log ++ [ev])%list).

Declare Scope eff_scope.
Delimit Scope eff_scope with eff.
Notation "x <- m ;; k" := (bind m (fun x => k))
  (at level 100, m at next level, k at level 200, right associativity) : eff_scope.
Notation "m ;; k" := (bind m (fun _ => k))
  (at level 100, k at level 200, right associativity) : eff_scope.

Definition CalledProcessError (rc : Z) : exn :=
  Exn "CalledProcessError" "Command returned non-zero exit status".

(** [subprocess.run(argv, capture_output=True, text=True, timeout=30, check=check)] *)
Definition subprocess_run (w : world) (argv : list string) (check : bool)
  : Eff CompletedProcess :=
  (emit (Ran argv) ;;
   match run_result w argv with
   | Exited rc err =>
       if check && negb (rc =? 0)%Z then raise (CalledProcessError rc)
       else ret {| returncode := rc; stderr := err |}
   | RunFails e => raise e
   end)%eff.

(** [subprocess.Popen(argv, start_new_session=True)] *)
Definition subprocess_Popen (w : world) (argv : list string) : Eff unit :=
  match popen_result w argv with
  | None => emit (Spawned argv)
  | Some e => raise e
  end.

Definition fetch_argv (config : Config) : list string :=
  ["git"; "-C"; repo_dir config; "fetch"; "origin"].

Definition reset_argv (config : Config) : list string :=
  ["git"; "-C"; repo_dir config; "reset"; "--hard"; "origin/main"].

(** The [try] block of [webhook]: fetch, reset, then start the restart
    script as a detached process. *)
Definition redeploy (config : Config) (w : world) : Eff response :=
  (try_
     (subprocess_run w (fetch_argv config) true ;;
      result <- subprocess_run w (reset_argv config) false ;;
      if negb (returncode result =? 0)%Z then
        ret (Response ("Git reset failed: " ++ stderr result) 500)
      else
        let start_script := OsPath.join (repo_dir config) ["cdn"; "start-cdn.sh"] in
        subprocess_Popen w [start_script] ;;
        ret (Response "OK, restarting..." 200))
     (fun e => ret (Response ("Error: " ++ exn_text e) 500)))%eff.

(** [request.headers.get("X-Hub-Signature-256", "")] *)
Definition signature_header (request : Request) : string :=
  match headers request !! "x-hub-signature-256" with
  | Some v => v
  | None => ""
  end.

(** ["sha256=" + hmac.new(config.webhook_secret.encode(), body, hashlib.sha256).hexdigest()] *)
Definition expected_signature (config : Config) (body : bytes) : string :=
  "sha256=" ++ Hmac.hexdigest (encode (webhook_secret config)) body.

Definition webhook (config : Config) (w : world) (request : Request) : Eff response :=
  if negb (truthy (webhook_secret config)) || negb (truthy (repo_dir config)) then
    ret (Response "Webhook not configured" 500)
  else
    let body := body request in
    let sig_header := signature_header request in
    if negb (startswith sig_header "sha256=") then
      ret (Response "Missing signature" 401)
    else
      let expected := expected_signature config body in
      (valid <- lift (Hmac.compare_digest sig_header expected) ;;
       if negb valid then ret (Response "Invalid signature" 401)
       else redeploy config w)%eff.

(** *** Files and directory listings *)

(** [sorted(l)] on a list of [str]. *)
Definition sorted (l : list string) : list string := merge_sort String.le l.

Definition dir_item (path d : string) : string :=
  "<li><a href=" ++ dquote ++ rstrip "/" path ++ "/" ++ d ++ "/" ++ dquote ++ ">"
    ++ d ++ "/</a></li>".

Definition file_item (path f : string) : string :=
  "<li><a href=" ++ dquote ++ rstrip "/" path ++ "/" ++ f ++ dquote ++ ">"
    ++ f ++ "</a></li>".

Definition render_listing (path : string) (dirs files : list string) : string :=
  let html := "<html><body><h1>" ++ path ++ "</h1><ul>" in
  let html := fold_left (fun html d => html ++ dir_item path d) dirs html in
  let html := fold_left (fun html f => html ++ file_item path f) files html in
  html ++ "</ul></body></html>".

Definition visible_dirs (fs : OsPath.filesystem) (full_path : string)
    (entries : list string) : list string :=
  List.filter
    (fun e => OsPath.isdir fs (OsPath.join full_path [e]) && negb (startswith e "."))
    entries.

Definition visible_files (fs : OsPath.filesystem) (full_path : string)
    (entries : list string) : list string :=
  List.filter
    (fun e => OsPath.isfile fs (OsPath.join full_path [e]) && negb (startswith e "."))
    entries.

(** [os.path.join(config.data_dir, safe_path) if safe_path else config.data_dir] *)
Definition full_path_of (config : Config) (safe_path : string) : string :=
  if truthy safe_path then OsPath.join (data_dir config) [safe_path]
  else data_dir config.

(** The body of [serve_files] below the authentication check: from the
    request path to a listing, a file, 403 or 404. *)
Definition resolve (config : Config) (fs : OsPath.filesystem) (path : string)
  : result response :=
  let safe_path := OsPath.normpath (lstrip "/" path) in
  if contains ".." safe_path then Ok (Response "Forbidden" 403)
  else
    let full_path := full_path_of config safe_path in
    if OsPath.isdir fs full_path then
      result_bind (OsPath.listdir fs full_path) (fun names =>
      let entries := sorted names in
      let dirs := visible_dirs fs full_path entries in
      let files := visible_files fs full_path entries in
      Ok (HTMLResponse (render_listing path dirs files)))
    else if OsPath.isfile fs full_path then Ok (FileResponse full_path)
    else Ok (Response "Not found" 404).

Definition serve_files (config : Config) (fs : OsPath.filesystem)
    (SESSION_SECRET : string) (request : Request) : result response :=
  let path := url_path request in
  let token := get_session_token request in
  result_bind (verify_session_token SESSION_SECRET token) (fun authenticated =>
  if negb authenticated then
    if String.eqb path "/" then
      Ok (FileResponse (OsPath.join (repo_dir config) ["cdn"; "login.html"]))
    else Ok (Response "Unauthorized" 401)
  else resolve config fs path).

(** *** Routes *)

Inductive endpoint : Type :=
| LoginPage
| Login
| Webhook
| ServeFiles.

Record Route := {
  route_path : string;
  route_endpoint : endpoint;
  route_methods : list string
}.

(** The route table, in order. The last path is the pattern Starlette
    matches every path with; matching a request against the table is the
    framework's work and is not modelled. *)
Definition routes : list Route :=
  [ {| route_path := "/login.html"; route_endpoint := LoginPage; route_methods := ["GET"] |};
    {| route_path := "/login"; route_endpoint := Login; route_methods := ["POST"] |};
    {| route_path := "/webhook"; route_endpoint := Webhook; route_methods := ["POST"] |};
    {| route_path := "/{path:path}"; route_endpoint := ServeFiles; route_methods := ["GET"] |} ].

End Serve.

(** * Notions the properties are stated with *)

(** ** Signatures as numbers *)

Module Counting.

(** Little-endian value of a byte string, and the byte string of a value. *)
Fixpoint pack (l : bytes) : N :=
  match l with
  | [] => 0
  | b :: r => Byte.to_N b + 256 * pack r
  end.

Definition N_to_byte (v : N) : byte :=
  match Byte.of_N v with
  | Some b => b
  | None => x00
  end.

Fixpoint unpack (n : nat) (x : N) : bytes :=
  match n with
  | O => []
  | S n' => N_to_byte (x mod 256) :: unpack n' (x / 256)
  end.

Definition hex_val (c : ascii) : Z :=
  let n := code_point c in
  if (n <? 58)%Z then (n - 48)%Z else (n - 87)%Z.

(** The [i]-th secret [secrets.token_hex(32)] can return. *)
Definition secret_of (i : N) : string := Serve.token_hex 32 (unpack 32 i).

(** The number the first eight bytes of the keyed hash stand for: the
    sixteen hexadecimal characters of a signature spell it. *)
Definition signature_value (secret data : string) : N :=
  pack (firstn 8 (Hmac.digest (encode secret) (encode data))).

End Counting.

(** ** Paths that leave the root *)

Module PathSpec.

(** Walking the components of a relative path from depth [depth] below a
    root: does some [".."] step above the root? *)
Fixpoint climbs (depth : nat) (comps : list string) : bool :=
  match comps with
  | [] => false
  | c :: r =>
      if String.eqb c "" || String.eqb c "." then climbs depth r
      else if String.eqb c ".." then
        match depth with
        | O => true
        | S d => climbs d r
        end
      else climbs (S depth) r
  end.

(** The kept components of a relative path, last first: [depth] ordinary
    ones above nothing or above a [".."]. *)
Definition at_depth (depth : nat) (stack : list string) : Prop :=
  exists ords rest,
    stack = (ords ++ rest)%list /\ List.length ords = depth /\
    Forall (fun x => x <> "..") ords /\
    (rest = [] \/ exists r, rest = ".." :: r).

End PathSpec.

(** ** Listings *)

Module ListingSpec.

Import OsPath Serve.

(** A name a directory entry can have. *)
Definition valid_name (e : string) : bool :=
  truthy e && negb (contains "/" e) && negb (String.eqb e ".") && negb (String.eqb e "..").

Fixpoint distinct (l : list string) : bool :=
  match l with
  | [] => true
  | x :: r => negb (existsb (String.eqb x) r) && distinct r
  end.

(** The entries of a directory: valid names, no name twice. *)
Definition well_formed (entries : list (string * node)) : bool :=
  forallb (fun e => valid_name (fst e)) entries && distinct (map fst entries).

Definition hidden (e : string) : bool := startswith e ".".

Definition flatten (l : list string) : string := fold_right String.append "" l.

(** The response is the listing of a directory with these entries: the
    page shows the subdirectories, then the regular files, each group in
    order and without repetition; the groups hold exactly the entries of
    their kind that are not hidden. *)
Definition lists (path : string) (entries : list (string * node))
    (r : result response) : Prop :=
  exists dirs files : list string,
    r = Ok (HTMLResponse
              ("<html><body><h1>" ++ path ++ "</h1><ul>"
               ++ flatten (map (dir_item path) dirs)
               ++ flatten (map (file_item path) files)
               ++ "</ul></body></html>")) /\
    Sorted String.le dirs /\ Sorted String.le files /\
    NoDup dirs /\ NoDup files /\
    (forall e, In e dirs <-> (exists sub, In (e, Dir sub) entries) /\ hidden e = false) /\
    (forall e, In e files <-> In (e, File) entries /\ hidden e = false).

End ListingSpec.

(** ** The webhook's success path *)

Module WebhookSpec.

Import Serve.

(** The script [redeploy] starts. *)
Definition start_script (config : Config) : string :=
  OsPath.join (repo_dir config) ["cdn"; "start-cdn.sh"].

(** The answer of the success path. *)
Definition restarted : response := Response "OK, restarting..." 200.

End WebhookSpec.

(** ** Further notions: tokens, logins, the sandbox *)

Module CoverageSpec.

Import OsPath Serve.

(** One of the sixteen characters [bytes.hex] writes. *)
Definition is_hex_digit (c : ascii) : bool :=
  existsb (Ascii.eqb c) (list_ascii_of_string "0123456789abcdef").

Fixpoint all_chars (p : ascii -> bool) (s : string) : bool :=
  match s with
  | EmptyString => true
  | String c r => p c && all_chars p r
  end.

(** What [login] takes for the submitted hash: the value under ["hash"] of
    a JSON object, and the empty string for everything else. *)
Definition received_hash (request : Request) : json :=
  match req_json request with
  | Some (JObject d) =>
      match d !! "hash" with
      | Some v => v
      | None => JString ""
      end
  | _ => JString ""
  end.

(** The two answers [login] has. *)
Definition logged_in (SESSION_SECRET : string) (entropy : bytes) : response :=
  JSONResponse (JObject {[ "ok" := JBool true ]}) 200
    [session_cookie (create_session_token SESSION_SECRET entropy)].

Definition login_refused : response :=
  JSONResponse (JObject {[ "ok" := JBool false ]}) 401 [].

(** The components [os.path.normpath] keeps of a request path, in order. *)
Definition kept_components (path : string) : list string :=
  rev (fold_left (normpath_step false) (split "/" (lstrip "/" path)) []).

(** A component [normpath] keeps, other than [".."]. *)
Definition plain (x : string) : Prop :=
  truthy x = true /\ contains "/" x = false /\ x <> ".".

(** Going down from a node through entries only: no [".."], no restart
    from the root. *)
Fixpoint descend (n : node) (names : list string) : option node :=
  match names with
  | [] => Some n
  | c :: r =>
      match n with
      | Dir entries =>
          match child c entries with
          | Some m => descend m r
          | None => None
          end
      | _ => None
      end
  end.

(** The links a listing of [path] gives to an entry [e]. *)
Definition file_link (path e : string) : string := rstrip "/" path ++ "/" ++ e.

Definition dir_link (path e : string) : string := rstrip "/" path ++ "/" ++ e ++ "/".

End CoverageSpec.

(** ** A small deployment to run the handlers on *)

Module Examples.

Import OsPath Serve.

(** [/srv/data] holds two files, a hidden file, two directories and a FIFO. *)
Definition data_entries : list (string * node) :=
  [ ("b", File); (".hid", File); ("zdir", Dir []); ("a", Dir [("x", File)]);
    ("pipe", Special); ("B", File) ].

Definition fs : filesystem :=
  {| root := Dir [("srv", Dir [("data", Dir data_entries)])]; cwd := "/" |}.

Definition config : Config :=
  {| data_dir := "/srv/data"; repo_dir := "/srv/repo"; password_hash := "abc";
     webhook_secret := "s3cr3t"; port := 8888 |}.

Definition secret : string := session_secret (repeat x00 32).

Definition token : string := create_session_token secret (repeat x01 16).

(** A GET request for [path] carrying [session=tok]. *)
Definition get (path tok : string) : Request :=
  {| url_path := path; cookies := {[ "session" := tok ]}; headers := ∅;
     body := []; req_json := None |}.

(** Every command succeeds. *)
Definition world_ok : world :=
  {| run_result := fun _ => Exited 0 ""; popen_result := fun _ => None |}.

(** [git reset] exits with 128, everything else succeeds. *)
Definition world_reset_fails : world :=
  {| run_result := fun argv =>
       if existsb (String.eqb "reset") argv then Exited 128 "fatal: ambiguous argument"
       else Exited 0 "";
     popen_result := fun _ => None |}.

Definition payload : bytes := encode "payload".

(** [sha256=] and the HMAC-SHA256 of [payload] keyed by [s3cr3t]. *)
Definition good_header : string :=
  "sha256=9747a46cf3eeff4c181f0e08bc0388aaf2e49e139bad03dd7fefec920b08b082".

(** The same with the last character changed. *)
Definition bad_header : string :=
  "sha256=9747a46cf3eeff4c181f0e08bc0388aaf2e49e139bad03dd7fefec920b08b083".

(** A POST request with the given signature header and body. *)
Definition post (sig_header : option string) (payload : bytes) (js : option json)
  : Request :=
  {| url_path := "/webhook"; cookies := ∅;
     headers := match sig_header with
                | Some h => {[ "x-hub-signature-256" := h ]}
                | None => ∅
                end;
     body := payload; req_json := js |}.

End Examples.

(** * Properties *)

(** ** Test vectors of the hash functions *)

Example sha256_constants :
  List.length SHA256.K = 64%nat /\
  hd 0%Z SHA256.K = 0x428a2f98%Z /\ last SHA256.K 0%Z = 0xc67178f2%Z /\
  SHA256.sa SHA256.H0 = 0x6a09e667%Z /\ SHA256.sh SHA256.H0 = 0x5be0cd19%Z.
Proof. repeat split. Qed.

Example sha256_abc :
  hexlify (SHA256.digest (encode "abc")) =
  "ba7816bf8f01cfea414140de5dae2223b00361a396177a9cb410ff61f20015ad".
Proof. vm_compute. reflexivity. Qed.

Example sha256_empty :
  hexlify (SHA256.digest []) =
  "e3b0c44298fc1c149afbf4c8996fb92427ae41e4649b934ca495991b7852b855".
Proof. vm_compute. reflexivity. Qed.

Example sha256_two_blocks :
  hexlify (SHA256.digest (encode "abcdbcdecdefdefgefghfghighijhijkijkljklmklmnlmnomnopnopq")) =
  "248d6a61d20638b8e5c026930c3e6039a33ce45964ff2167f6ecedd419db06c1".
Proof. vm_compute. reflexivity. Qed.

Example hmac_rfc4231_case2 :
  Hmac.hexdigest (encode "Jefe") (encode "what do ya want for nothing?") =
  "5bdcc146bf60754e6a042426089575c75a003f089d2739839dec58b964ec3843".
Proof. vm_compute. reflexivity. Qed.

Example hmac_rfc4231_case6 :
  Hmac.hexdigest (repeat xaa 131)
    (encode "Test Using Larger Than Block-Size Key - Hash Key First") =
  "60e431591ee0b67f0d8a26aacbf5b77f8e0bc6213728c5140546040f0ee37f54".
Proof. vm_compute. reflexivity. Qed.

Example encode_non_ascii : encode (String "233"%char "") = [xc3; xa9].
Proof. reflexivity. Qed.

(** ** The library model on the values Python gives *)

Example normpath_values :
  OsPath.normpath "" = "." /\
  OsPath.normpath "a/../b" = "b" /\
  OsPath.normpath "a/../../etc/passwd" = "../etc/passwd" /\
  OsPath.normpath "a..b/../c" = "c" /\
  OsPath.normpath "a/b/" = "a/b" /\
  OsPath.normpath "//a/./b/../../../c/" = "//c" /\
  OsPath.normpath "///a" = "/a" /\
  OsPath.normpath "/.." = "/".
Proof. repeat split. Qed.

Example join_values :
  OsPath.join "/d" ["cdn"; "x"] = "/d/cdn/x" /\
  OsPath.join "/d/" ["x"] = "/d/x" /\
  OsPath.join "/d" ["/cdn"; "x"] = "/cdn/x" /\
  OsPath.join "" ["x"] = "x" /\
  OsPath.join "/d" ["."] = "/d/.".
Proof. repeat split. Qed.

Example str_values :
  rsplit1 "." "a.b.c" = ["a.b"; "c"] /\
  rsplit1 "." "abc" = ["abc"] /\
  rsplit1 "." ".x" = [""; "x"] /\
  split "/" "a//b/" = ["a"; ""; "b"; ""] /\
  lstrip "/" "//a/b//" = "a/b//" /\
  rstrip "/" "/a/b//" = "/a/b" /\
  Serve.sorted ["b"; ".hid"; "zdir"; "a"; "pipe"; "B"] = [".hid"; "B"; "a"; "b"; "pipe"; "zdir"].
Proof. repeat split. Qed.

Example compare_digest_values :
  Hmac.compare_digest "abc" "abc" = Ok true /\
  Hmac.compare_digest "abc" "abd" = Ok false /\
  Hmac.compare_digest "abc" "ab" = Ok false /\
  Hmac.compare_digest "" (String "233"%char "") =
    Raise (TypeError "comparing strings with non-ASCII characters is not supported").
Proof. repeat split. Qed.

(** ** Strings *)

Module StrFacts.

Lemma append_cons (a : ascii) (s t : string) : String a s ++ t = String a (s ++ t).
Proof. reflexivity. Qed.

Lemma append_nil_l (s : string) : "" ++ s = s.
Proof. reflexivity. Qed.

Lemma append_nil_r (s : string) : s ++ "" = s.
Proof.
  induction s as [|a s IH]; [reflexivity|]. now rewrite append_cons, IH.
Qed.

Lemma append_assoc (a b c : string) : (a ++ b) ++ c = a ++ (b ++ c).
Proof.
  induction a as [|x a IH]; [reflexivity|]. now rewrite !append_cons, IH.
Qed.

Lemma length_append (a b : string) :
  String.length (a ++ b) = (String.length a + String.length b)%nat.
Proof.
  induction a as [|x a IH]; [reflexivity|]. rewrite append_cons. simpl. now rewrite IH.
Qed.

Lemma truthy_append_r (a b : string) : truthy b = true -> truthy (a ++ b) = true.
Proof. destruct a; [rewrite append_nil_l; auto | reflexivity]. Qed.

Lemma truthy_false (s : string) : truthy s = false -> s = "".
Proof. destruct s; simpl; [reflexivity | discriminate]. Qed.

(** [c in s] for a single character. *)
Lemma contains_char_cons (c a : ascii) (r : string) :
  contains (String c "") (String a r) = Ascii.eqb a c || contains (String c "") r.
Proof.
  simpl. now rewrite andb_true_r.
Qed.

Lemma contains_char_nil (c : ascii) : contains (String c "") "" = false.
Proof. reflexivity. Qed.

Lemma contains_char_append (c : ascii) (a b : string) :
  contains (String c "") (a ++ b) = contains (String c "") a || contains (String c "") b.
Proof.
  induction a as [|x a IH].
  - reflexivity.
  - rewrite append_cons, !contains_char_cons, IH. now rewrite orb_assoc.
Qed.

Lemma isascii_append (a b : string) : isascii (a ++ b) = isascii a && isascii b.
Proof.
  induction a as [|x a IH]; [reflexivity|].
  rewrite append_cons. simpl. now rewrite IH, andb_assoc.
Qed.

Lemma isascii_take (n : nat) (s : string) : isascii s = true -> isascii (take n s) = true.
Proof.
  revert s. induction n as [|n IH]; intros [|a s]; simpl; auto.
  intros [Ha Hs]%andb_prop. rewrite Ha. simpl. auto.
Qed.

Lemma contains_char_take (c : ascii) (n : nat) (s : string) :
  contains (String c "") s = false -> contains (String c "") (take n s) = false.
Proof.
  revert s. induction n as [|n IH]; intros [|a s]; try reflexivity.
  change (take (S n) (String a s)) with (String a (take n s)).
  rewrite !contains_char_cons. intros [Ha Hs]%orb_false_elim.
  rewrite Ha. simpl. auto.
Qed.

Lemma length_take (n : nat) (s : string) :
  String.length (take n s) = Nat.min n (String.length s).
Proof.
  revert s. induction n as [|n IH]; intros [|a s]; simpl; auto.
Qed.

(** *** [rsplit] *)

Lemma rsplit1_no_sep (c : ascii) (s : string) :
  contains (String c "") s = false -> rsplit1 c s = [s].
Proof.
  induction s as [|a s IH]; [reflexivity|].
  rewrite contains_char_cons. intros [Ha Hs]%orb_false_elim.
  simpl. rewrite (IH Hs), Ha. reflexivity.
Qed.

Lemma rsplit1_cut (c : ascii) (d g : string) :
  contains (String c "") g = false -> rsplit1 c (d ++ String c g) = [d; g].
Proof.
  intros Hg. induction d as [|a d IH].
  - rewrite append_nil_l. simpl.
    rewrite (rsplit1_no_sep _ _ Hg), Ascii.eqb_refl. reflexivity.
  - rewrite append_cons. simpl. rewrite IH. reflexivity.
Qed.

Lemma rsplit1_sep (c : ascii) (s : string) :
  contains (String c "") s = true ->
  exists d g, s = d ++ String c g /\ contains (String c "") g = false.
Proof.
  induction s as [|a s IH]; [discriminate|].
  rewrite contains_char_cons.
  destruct (contains (String c "") s) eqn:Hs.
  - intros _. destruct (IH eq_refl) as (d & g & -> & Hg).
    exists (String a d), g. split; [reflexivity | exact Hg].
  - rewrite orb_false_r. intros ->%Ascii.eqb_eq.
    exists "", s. split; [reflexivity | exact Hs].
Qed.

(** *** Hexadecimal text *)

Lemma hex_digit_plain (n : Z) : (0 <= n < 16)%Z -> is_hex_char (hex_digit n) = true.
Proof.
  intros H. rewrite <- (Z2Nat.id n) by lia.
  assert (Z.to_nat n < 16)%nat as Hk by lia. revert Hk. generalize (Z.to_nat n) as k.
  intros k Hk. do 16 (destruct k as [|k]; [reflexivity|]). lia.
Qed.

Lemma byte_to_Z_range (b : byte) : (0 <= byte_to_Z b < 256)%Z.
Proof.
  unfold byte_to_Z. pose proof (Byte.to_N_bounded b). lia.
Qed.

Lemma hex_byte_plain (b : byte) :
  isascii (hex_byte b) = true /\ contains "." (hex_byte b) = false.
Proof.
  pose proof (byte_to_Z_range b) as Hb. unfold hex_byte.
  assert (is_hex_char (hex_digit (byte_to_Z b / 16)) = true) as [H1 H1']%andb_prop.
  { apply hex_digit_plain. split; [apply Z.div_pos; lia | apply Z.div_lt_upper_bound; lia]. }
  assert (is_hex_char (hex_digit (byte_to_Z b mod 16)) = true) as [H2 H2']%andb_prop.
  { apply hex_digit_plain. apply Z.mod_pos_bound. lia. }
  split.
  - simpl. now rewrite H1, H2.
  - rewrite !contains_char_cons, contains_char_nil.
    apply negb_true_iff in H1', H2'. now rewrite H1', H2'.
Qed.

Lemma hexlify_plain (b : bytes) :
  isascii (hexlify b) = true /\ contains "." (hexlify b) = false.
Proof.
  induction b as [|x b [IH1 IH2]]; [split; reflexivity|].
  destruct (hex_byte_plain x) as [H1 H2]. simpl hexlify. split.
  - now rewrite isascii_append, H1, IH1.
  - now rewrite contains_char_append, H2, IH2.
Qed.

Lemma length_hexlify (b : bytes) : String.length (hexlify b) = (2 * List.length b)%nat.
Proof.
  induction b as [|x b IH]; [reflexivity|].
  simpl hexlify. rewrite length_append, IH. simpl. lia.
Qed.

End StrFacts.

(** ** [hmac] *)

Module HmacFacts.

Import StrFacts.

Lemma length_state_bytes (s : SHA256.state) : List.length (SHA256.state_bytes s) = 32%nat.
Proof. reflexivity. Qed.

Lemma length_sha256 (msg : bytes) : List.length (SHA256.digest msg) = 32%nat.
Proof. unfold SHA256.digest. apply length_state_bytes. Qed.

Lemma length_digest (key msg : bytes) : List.length (Hmac.digest key msg) = 32%nat.
Proof. unfold Hmac.digest. apply length_sha256. Qed.

Lemma length_hexdigest (key msg : bytes) : String.length (Hmac.hexdigest key msg) = 64%nat.
Proof. unfold Hmac.hexdigest. now rewrite length_hexlify, length_digest. Qed.

(** The loop of [compare_digest] ends on 0 exactly when it started from 0
    and the operands agree everywhere. *)
Lemma tscmp_loop_zero (l r : list Z) (acc : Z) :
  List.length l = List.length r ->
  Hmac.tscmp_loop l r acc = 0%Z <-> acc = 0%Z /\ l = r.
Proof.
  revert r acc. induction l as [|x l IH]; intros [|y r] acc Hlen; try discriminate.
  - simpl. split; [auto | now intros [? _]].
  - simpl. rewrite IH by (simpl in Hlen; lia).
    rewrite Z.lor_eq_0_iff. split.
    + intros [[-> Hxy] ->]. apply Z.lxor_eq in Hxy. now subst.
    + intros [-> [= -> ->]]. now rewrite Z.lxor_nilpotent.
Qed.

Lemma tscmp_loop_nonzero (l r : list Z) (acc : Z) :
  acc <> 0%Z -> Hmac.tscmp_loop l r acc <> 0%Z.
Proof.
  revert r acc. induction l as [|x l IH]; intros [|y r] acc Hacc; simpl; auto.
  apply IH. rewrite Z.lor_eq_0_iff. tauto.
Qed.

Lemma tscmp_true (a b : list Z) : Hmac.tscmp a b = true <-> a = b.
Proof.
  unfold Hmac.tscmp. destruct (Nat.eqb_spec (List.length a) (List.length b)) as [Hlen|Hlen].
  - rewrite Z.eqb_eq, tscmp_loop_zero by exact Hlen. tauto.
  - split.
    + intros H%Z.eqb_eq. now apply tscmp_loop_nonzero in H.
    + intros ->. contradiction.
Qed.

Lemma code_point_inj (c d : ascii) : code_point c = code_point d -> c = d.
Proof.
  unfold code_point. intros H%N2Z.inj.
  rewrite <- (ascii_N_embedding c), <- (ascii_N_embedding d). now rewrite H.
Qed.

Lemma code_points_inj (s t : string) : Hmac.code_points s = Hmac.code_points t -> s = t.
Proof.
  unfold Hmac.code_points. revert t.
  induction s as [|c s IH]; intros [|d t]; simpl; try discriminate; [reflexivity|].
  intros [= Hc Hs]. f_equal; [now apply code_point_inj | now apply IH].
Qed.

(** On ASCII operands [compare_digest] is equality; otherwise it raises. *)
Lemma compare_digest_ascii (a b : string) :
  isascii a = true -> isascii b = true ->
  Hmac.compare_digest a b = Ok (String.eqb a b).
Proof.
  intros Ha Hb. unfold Hmac.compare_digest. rewrite Ha, Hb. simpl. f_equal.
  destruct (String.eqb_spec a b) as [->|Hne].
  - now apply tscmp_true.
  - destruct (Hmac.tscmp _ _) eqn:E; [|reflexivity].
    apply tscmp_true, code_points_inj in E. contradiction.
Qed.

Lemma compare_digest_true (a b : string) :
  Hmac.compare_digest a b = Ok true -> a = b.
Proof.
  unfold Hmac.compare_digest. destruct (isascii a && isascii b); [|discriminate].
  intros [= H]. now apply tscmp_true, code_points_inj in H.
Qed.

Lemma compare_digest_non_ascii (a b : string) :
  isascii a = false ->
  Hmac.compare_digest a b =
  Raise (TypeError "comparing strings with non-ASCII characters is not supported").
Proof. intros Ha. unfold Hmac.compare_digest. now rewrite Ha. Qed.

Lemma hexdigest_plain (key msg : bytes) :
  isascii (Hmac.hexdigest key msg) = true /\ contains "." (Hmac.hexdigest key msg) = false.
Proof. apply hexlify_plain. Qed.

End HmacFacts.

(** ** Session tokens *)

Module SessionFacts.

Import Serve StrFacts HmacFacts.

Lemma signature_ascii (secret data : string) : isascii (signature secret data) = true.
Proof. apply isascii_take, hexdigest_plain. Qed.

Lemma signature_no_dot (secret data : string) :
  contains "." (signature secret data) = false.
Proof. apply contains_char_take, hexdigest_plain. Qed.

Lemma length_signature (secret data : string) :
  String.length (signature secret data) = 16%nat.
Proof. unfold signature. rewrite length_take, length_hexdigest. reflexivity. Qed.

(** What [verify_session_token] does with a token cut at its last dot. *)
Lemma verify_cut (secret data sig : string) :
  contains "." sig = false ->
  verify_session_token secret (Some (data ++ "." ++ sig)) =
  Hmac.compare_digest sig (signature secret data).
Proof.
  intros Hsig. unfold verify_session_token.
  change ("." ++ sig) with (String "." sig).
  rewrite truthy_append_r by reflexivity.
  rewrite contains_char_append, contains_char_cons, Ascii.eqb_refl.
  rewrite orb_true_l, orb_true_r. simpl.
  rewrite rsplit1_cut by exact Hsig. reflexivity.
Qed.

Lemma verify_no_dot (secret token : string) :
  contains "." token = false -> verify_session_token secret (Some token) = Ok false.
Proof.
  intros H. unfold verify_session_token. rewrite H. now rewrite orb_true_r.
Qed.

(** Any data followed by a dot and its own signature is accepted: the data
    may be anything, also text with dots in it. *)
Lemma verify_signed (secret data : string) :
  verify_session_token secret (Some (data ++ "." ++ signature secret data)) = Ok true.
Proof.
  rewrite verify_cut by apply signature_no_dot.
  rewrite compare_digest_ascii by apply signature_ascii.
  now rewrite String.eqb_refl.
Qed.

(** C2. Every token [create_session_token] produces is accepted by
    [verify_session_token] under the same [SESSION_SECRET], whatever the
    secret and whatever random bytes the token was drawn from. *)
Theorem created_token_verifies (SESSION_SECRET : string) (entropy : bytes) :
  verify_session_token SESSION_SECRET
    (Some (create_session_token SESSION_SECRET entropy)) = Ok true.
Proof. unfold create_session_token. apply verify_signed. Qed.

(** C3, as the code has it. A token is accepted exactly when it is some
    data, a dot, and the signature of that data: the cut is at the last
    dot, and the data before it is free to contain further dots. *)
Theorem verify_true_iff (SESSION_SECRET token : string) :
  verify_session_token SESSION_SECRET (Some token) = Ok true <->
  exists data, token = data ++ "." ++ signature SESSION_SECRET data.
Proof.
  split.
  - intros H. destruct (contains "." token) eqn:Hdot.
    + destruct (rsplit1_sep _ _ Hdot) as (d & g & -> & Hg).
      change (String "." g) with ("." ++ g) in H.
      rewrite verify_cut in H by exact Hg.
      apply compare_digest_true in H. subst g. now exists d.
    + rewrite verify_no_dot in H by exact Hdot. discriminate.
  - intros [d ->]. apply verify_signed.
Qed.

(** C3, the claim as stated fails: under the all-zero secret this token
    has three dot-delimited parts and is accepted. *)
Lemma token_with_two_dots_verifies :
  let token := "a.b.fca57317c029564c" in
  List.length (split "." token) = 3%nat /\
  verify_session_token (token_hex 32 (repeat x00 32)) (Some token) = Ok true.
Proof. vm_compute. split; reflexivity. Qed.

End SessionFacts.

(** ** Truncated signatures collide *)

Module CountingFacts.

Import Serve StrFacts HmacFacts SessionFacts Counting.

(** *** Pigeonhole *)

Lemma find_value (f : nat -> nat) (v n : nat) :
  (exists i, i <= n /\ f i = v) \/ (forall i, i <= n -> f i <> v).
Proof.
  induction n as [|n [(i & Hi & Hf)|IH]].
  - destruct (Nat.eq_dec (f 0%nat) v) as [E|E].
    + left. exists 0%nat. split; [lia | exact E].
    + right. intros i Hi. replace i with 0%nat by lia. exact E.
  - left. exists i. split; [lia | exact Hf].
  - destruct (Nat.eq_dec (f (S n)) v) as [E|E].
    + left. exists (S n). split; [lia | exact E].
    + right. intros i Hi. destruct (Nat.eq_dec i (S n)) as [->|Hne]; [exact E|].
      apply IH. lia.
Qed.

Lemma pigeonhole_nat (n : nat) (f : nat -> nat) :
  (forall i, i <= n -> f i < n) -> exists i j, i < j /\ j <= n /\ f i = f j.
Proof.
  revert f. induction n as [|n IH]; intros f Hf.
  - specialize (Hf 0%nat). lia.
  - destruct (find_value f (f (S n)) n) as [(i & Hi & E)|Hfresh].
    + exists i, (S n). repeat split; [lia | lia | exact E].
    + set (v := f (S n)).
      set (g := fun i => if (f i <? v)%nat then f i else f i - 1).
      destruct (IH g) as (i & j & Hij & Hj & E).
      * intros i Hi. unfold g.
        pose proof (Hf i ltac:(lia)). pose proof (Hf (S n) ltac:(lia)).
        pose proof (Hfresh i Hi). fold v in H0, H1.
        destruct (Nat.ltb_spec (f i) v); lia.
      * exists i, j. repeat split; [lia | lia |].
        pose proof (Hfresh i ltac:(lia)). pose proof (Hfresh j ltac:(lia)).
        fold v in H, H0. unfold g in E.
        destruct (Nat.ltb_spec (f i) v), (Nat.ltb_spec (f j) v); lia.
Qed.

(** [n + 1] values below [n] cannot all differ. The bound is binary, so
    the statement can be used at [2 ^ 64]. *)
Lemma pigeonhole (n : N) (f : N -> N) :
  (forall i, (i <= n)%N -> (f i < n)%N) ->
  exists i j, (i < j)%N /\ (j <= n)%N /\ f i = f j.
Proof.
  intros Hf.
  destruct (pigeonhole_nat (N.to_nat n) (fun i => N.to_nat (f (N.of_nat i))))
    as (i & j & Hij & Hj & E).
  - intros i Hi. specialize (Hf (N.of_nat i)). lia.
  - exists (N.of_nat i), (N.of_nat j). repeat split; [lia | lia |].
    now apply N2Nat.inj.
Qed.

(** *** Byte strings as numbers *)

Lemma to_N_to_byte (v : N) : (v < 256)%N -> Byte.to_N (N_to_byte v) = v.
Proof.
  intros Hv. unfold N_to_byte. destruct (Byte.of_N v) as [b|] eqn:E.
  - now apply Byte.to_of_N.
  - apply Byte.of_N_None_iff in E. lia.
Qed.

Lemma to_N_inj (a b : byte) : Byte.to_N a = Byte.to_N b -> a = b.
Proof.
  intros H. pose proof (Byte.of_to_N a) as Ha. rewrite H, Byte.of_to_N in Ha. congruence.
Qed.

Lemma length_unpack (n : nat) (x : N) : List.length (unpack n x) = n.
Proof. revert x. induction n as [|n IH]; intros x; simpl; [reflexivity | now rewrite IH]. Qed.

Lemma pack_unpack (n : nat) (x : N) : pack (unpack n x) = (x mod 256 ^ N.of_nat n)%N.
Proof.
  revert x. induction n as [|n IH]; intros x.
  - simpl. now rewrite N.mod_1_r.
  - cbn [unpack pack]. rewrite IH, to_N_to_byte by (apply N.mod_lt; lia).
    rewrite Nnat.Nat2N.inj_succ, N.pow_succ_r'.
    rewrite (N.Div0.mod_mul_r x 256). lia.
Qed.

Lemma pack_inj (l l' : bytes) :
  List.length l = List.length l' -> pack l = pack l' -> l = l'.
Proof.
  revert l'. induction l as [|b l IH]; intros [|b' l'] Hlen; try discriminate; [reflexivity|].
  cbn [pack]. intros H.
  pose proof (Byte.to_N_bounded b). pose proof (Byte.to_N_bounded b').
  assert (Byte.to_N b = Byte.to_N b' /\ pack l = pack l') as [Hb Hl] by lia.
  f_equal; [now apply to_N_inj | apply IH; [simpl in Hlen; lia | exact Hl]].
Qed.

Lemma pack_bound (l : bytes) : (pack l < 256 ^ N.of_nat (List.length l))%N.
Proof.
  induction l as [|b l IH]; [simpl; lia|].
  cbn [pack List.length]. rewrite Nnat.Nat2N.inj_succ, N.pow_succ_r'.
  pose proof (Byte.to_N_bounded b). lia.
Qed.

(** *** Hexadecimal text is injective *)

Lemma hex_val_digit (n : Z) : (0 <= n < 16)%Z -> hex_val (hex_digit n) = n.
Proof.
  intros H. rewrite <- (Z2Nat.id n) at 2 by lia. rewrite <- (Z2Nat.id n) at 1 by lia.
  assert (Z.to_nat n < 16)%nat as Hk by lia. revert Hk. generalize (Z.to_nat n) as k.
  intros k Hk. do 16 (destruct k as [|k]; [reflexivity|]). lia.
Qed.

Lemma hex_byte_inj (a b : byte) : hex_byte a = hex_byte b -> a = b.
Proof.
  unfold hex_byte. intros [= Hhi Hlo].
  pose proof (byte_to_Z_range a) as Ha. pose proof (byte_to_Z_range b) as Hb.
  apply (f_equal hex_val) in Hhi, Hlo.
  rewrite !hex_val_digit in Hhi, Hlo
    by first [ apply Z.mod_pos_bound; lia
             | split; [apply Z.div_pos; lia | apply Z.div_lt_upper_bound; lia] ].
  assert (byte_to_Z a = byte_to_Z b) as E.
  { rewrite (Z.div_mod (byte_to_Z a) 16), (Z.div_mod (byte_to_Z b) 16) by lia. lia. }
  unfold byte_to_Z in E. apply N2Z.inj in E. now apply to_N_inj.
Qed.

Lemma hexlify_cons (x : byte) (r : bytes) :
  hexlify (x :: r) =
  String (hex_digit (byte_to_Z x / 16)) (String (hex_digit (byte_to_Z x mod 16)) (hexlify r)).
Proof. reflexivity. Qed.

Lemma hexlify_inj (l l' : bytes) : hexlify l = hexlify l' -> l = l'.
Proof.
  revert l'. induction l as [|x l IH]; intros [|y l'].
  - reflexivity.
  - rewrite hexlify_cons. discriminate.
  - rewrite hexlify_cons. discriminate.
  - rewrite !hexlify_cons. intros [= H1 H2 H3].
    f_equal; [apply hex_byte_inj; unfold hex_byte; now rewrite H1, H2 | now apply IH].
Qed.

Lemma take_hexlify (n : nat) (l : bytes) : take (2 * n) (hexlify l) = hexlify (firstn n l).
Proof.
  revert l. induction n as [|n IH]; intros [|x l]; try reflexivity.
  replace (2 * S n)%nat with (S (S (2 * n))) by lia.
  rewrite hexlify_cons. cbn [take firstn]. rewrite hexlify_cons, IH. reflexivity.
Qed.

(** *** Secrets and signatures as numbers *)

Lemma secret_of_inj (i j : N) :
  (i < 256 ^ 32)%N -> (j < 256 ^ 32)%N -> secret_of i = secret_of j -> i = j.
Proof.
  intros Hi Hj. unfold secret_of, token_hex.
  rewrite !firstn_all2 by (rewrite length_unpack; lia).
  intros H%hexlify_inj. apply (f_equal pack) in H.
  rewrite !pack_unpack in H. change (N.of_nat 32) with 32%N in H.
  now rewrite !N.mod_small in H.
Qed.

Lemma signature_hex (secret data : string) :
  signature secret data = hexlify (firstn 8 (Hmac.digest (encode secret) (encode data))).
Proof. unfold signature, Hmac.hexdigest. apply (take_hexlify 8). Qed.

Lemma signature_value_bound (secret data : string) :
  (signature_value secret data < 2 ^ 64)%N.
Proof.
  unfold signature_value.
  pose proof (pack_bound (firstn 8 (Hmac.digest (encode secret) (encode data)))) as H.
  rewrite length_firstn, length_digest in H. exact H.
Qed.

Lemma signature_value_inj (secret secret' data : string) :
  signature_value secret data = signature_value secret' data ->
  signature secret data = signature secret' data.
Proof.
  unfold signature_value. intros H%pack_inj.
  - now rewrite !signature_hex, H.
  - now rewrite !length_firstn, !length_digest.
Qed.

(** Among the first [2 ^ 64 + 1] secrets two sign the same data alike, and
    then each accepts the tokens of the other. *)
Lemma colliding_secrets (entropy : bytes) :
  exists i j : N,
    (i < j)%N /\ (j <= 2 ^ 64)%N /\
    verify_session_token (secret_of j)
      (Some (create_session_token (secret_of i) entropy)) = Ok true.
Proof.
  destruct (pigeonhole (2 ^ 64) (fun i => signature_value (secret_of i) (token_hex 16 entropy)))
    as (i & j & Hij & Hj & E).
  - intros i _. apply signature_value_bound.
  - exists i, j. repeat split; [exact Hij | exact Hj |].
    unfold create_session_token. rewrite (signature_value_inj _ _ _ E).
    apply verify_signed.
Qed.

End CountingFacts.

(** ** Rejected tokens *)

Module RejectFacts.

Import Serve StrFacts HmacFacts SessionFacts Counting CountingFacts.

(** A token whose last part is ASCII text of the length of a signature,
    but not the signature of what precedes it, is rejected; the last part
    may itself contain dots. *)
Lemma verify_wrong_signature (secret data sig : string) :
  isascii sig = true -> String.length sig = 16%nat -> sig <> signature secret data ->
  verify_session_token secret (Some (data ++ "." ++ sig)) = Ok false.
Proof.
  intros Hascii Hlen Hne. destruct (contains "." sig) eqn:Hdot.
  - destruct (rsplit1_sep _ _ Hdot) as (u & v & -> & Hv).
    change (String "." v) with ("." ++ v) in *.
    replace (data ++ "." ++ u ++ "." ++ v) with ((data ++ "." ++ u) ++ "." ++ v)
      by now rewrite !append_assoc.
    rewrite verify_cut by exact Hv.
    rewrite isascii_append in Hascii. apply andb_prop in Hascii as [_ Hascii].
    rewrite isascii_append in Hascii. apply andb_prop in Hascii as [_ Hascii].
    rewrite compare_digest_ascii by (exact Hascii || apply signature_ascii).
    destruct (String.eqb_spec v (signature secret (data ++ "." ++ u))) as [E|_]; [|reflexivity].
    apply (f_equal String.length) in E. rewrite length_signature in E.
    rewrite !length_append in Hlen. simpl in Hlen. lia.
  - rewrite verify_cut by exact Hdot.
    rewrite compare_digest_ascii by (exact Hascii || apply signature_ascii).
    now destruct (String.eqb_spec sig (signature secret data)).
Qed.

(** A token whose last part holds a non-ASCII character is not rejected:
    the comparison raises. *)
Lemma verify_raises (secret data sig : string) :
  contains "." sig = false -> isascii sig = false ->
  verify_session_token secret (Some (data ++ "." ++ sig)) =
  Raise (TypeError "comparing strings with non-ASCII characters is not supported").
Proof.
  intros Hdot Hascii. rewrite verify_cut by exact Hdot.
  now apply compare_digest_non_ascii.
Qed.

(** C4, as the code has it. [verify_session_token] returns false for an
    absent or empty token, for a token without a dot, for an issued token
    with one character of its signature replaced by another ASCII
    character, and for a token issued under another secret whose
    signature of the token's data differs. *)
Theorem verify_fails_closed (SESSION_SECRET : string) :
  verify_session_token SESSION_SECRET None = Ok false /\
  verify_session_token SESSION_SECRET (Some "") = Ok false /\
  (forall token : string,
      contains "." token = false ->
      verify_session_token SESSION_SECRET (Some token) = Ok false) /\
  (forall (entropy : bytes) (pre post : string) (c c' : ascii),
      signature SESSION_SECRET (token_hex 16 entropy) = pre ++ String c post ->
      c' <> c -> is_ascii_char c' = true ->
      verify_session_token SESSION_SECRET
        (Some (token_hex 16 entropy ++ "." ++ pre ++ String c' post)) = Ok false) /\
  (forall (other : string) (entropy : bytes),
      signature other (token_hex 16 entropy) <>
        signature SESSION_SECRET (token_hex 16 entropy) ->
      verify_session_token SESSION_SECRET
        (Some (create_session_token other entropy)) = Ok false).
Proof.
  repeat split.
  - apply verify_no_dot.
  - intros entropy pre post c c' Hsig Hc Hc'.
    pose proof (signature_ascii SESSION_SECRET (token_hex 16 entropy)) as Hascii.
    pose proof (length_signature SESSION_SECRET (token_hex 16 entropy)) as Hlen.
    rewrite Hsig in Hascii, Hlen.
    rewrite isascii_append in Hascii. apply andb_prop in Hascii as [Hpre Hpost].
    simpl in Hpost. apply andb_prop in Hpost as [_ Hpost].
    rewrite length_append in Hlen. simpl in Hlen.
    apply verify_wrong_signature.
    + rewrite isascii_append, Hpre. simpl. now rewrite Hc', Hpost.
    + rewrite length_append. simpl. exact Hlen.
    + rewrite Hsig. intros E%(inj (String.append pre)). congruence.
  - intros other entropy Hne. unfold create_session_token.
    rewrite verify_cut by apply signature_no_dot.
    rewrite compare_digest_ascii by apply signature_ascii.
    now destruct (String.eqb_spec (signature other (token_hex 16 entropy))
                                  (signature SESSION_SECRET (token_hex 16 entropy))).
Qed.

(** The four cases on the all-zero secret: a token without dot, the issued
    token with its last character changed from 1 to 0, and the token issued
    under the all-ones secret. *)
Lemma verify_fails_closed_witness :
  let secret := token_hex 32 (repeat x00 32) in
  let other := token_hex 32 (repeat xff 32) in
  let entropy := repeat x01 16 in
  create_session_token secret entropy = "01010101010101010101010101010101.1cb8b770f7781201" /\
  verify_session_token secret (Some "01010101010101010101010101010101") = Ok false /\
  verify_session_token secret (Some "01010101010101010101010101010101.1cb8b770f7781200") = Ok false /\
  verify_session_token secret (Some (create_session_token other entropy)) = Ok false.
Proof.
  intros secret other entropy.
  destruct (verify_fails_closed secret) as (_ & _ & Hdot & Haltered & Hother).
  split; [vm_compute; reflexivity|].
  split; [apply Hdot; reflexivity|].
  split.
  - apply (Haltered entropy "1cb8b770f778120" "" "1"%char "0"%char);
      [vm_compute; reflexivity | discriminate | reflexivity].
  - apply Hother. vm_compute. discriminate.
Defined.

(** C4, the claim as stated fails twice. Replacing the last character of
    an issued signature by a non-ASCII one (code point 233) makes
    [verify_session_token] raise instead of returning false; and it is
    not the case that every token issued under another secret is
    rejected, since signatures are cut to 64 bits. *)
Lemma verify_does_not_always_reject :
  let secret := token_hex 32 (repeat x00 32) in
  (create_session_token secret (repeat x01 16) =
     "01010101010101010101010101010101.1cb8b770f7781201" /\
   verify_session_token secret
     (Some ("01010101010101010101010101010101.1cb8b770f778120" ++ String "233"%char "")) =
   Raise (TypeError "comparing strings with non-ASCII characters is not supported")) /\
  ~ (forall e1 e2 entropy : bytes,
        List.length e1 = 32%nat -> List.length e2 = 32%nat ->
        token_hex 32 e1 <> token_hex 32 e2 ->
        verify_session_token (token_hex 32 e2)
          (Some (create_session_token (token_hex 32 e1) entropy)) = Ok false).
Proof.
  split; [split; vm_compute; reflexivity|].
  intros Hclaim.
  destruct (colliding_secrets []) as (i & j & Hij & Hj & Haccepted).
  assert (2 ^ 64 < 256 ^ 32)%N as Hbig by (vm_compute; reflexivity).
  specialize (Hclaim (unpack 32 i) (unpack 32 j) []).
  fold (secret_of i) (secret_of j) in Hclaim.
  rewrite Hclaim in Haccepted; [discriminate | apply length_unpack | apply length_unpack |].
  intros E%secret_of_inj; lia.
Qed.

End RejectFacts.

(** ** Paths *)

Module PathFacts.

Import OsPath StrFacts PathSpec.

Lemma contains_cons (sub : string) (x : ascii) (a : string) :
  contains sub (String x a) = startswith (String x a) sub || contains sub a.
Proof. reflexivity. Qed.

Lemma startswith_append_l (sub a b : string) :
  startswith a sub = true -> startswith (a ++ b) sub = true.
Proof.
  revert a. induction sub as [|x sub IH]; intros a H; [reflexivity|].
  destruct a as [|y a]; [discriminate|].
  rewrite append_cons. simpl in *. apply andb_prop in H as [-> H]. now apply IH.
Qed.

Lemma contains_append_l (sub a b : string) :
  contains sub a = true -> contains sub (a ++ b) = true.
Proof.
  induction a as [|x a IH]; intros H.
  - simpl in H. rewrite orb_false_r in H.
    destruct sub; [|discriminate]. rewrite append_nil_l. destruct b; reflexivity.
  - rewrite contains_cons in H. apply orb_prop in H as [H|H].
    + apply (startswith_append_l _ _ b) in H. rewrite append_cons in *.
      rewrite contains_cons. now rewrite H.
    + rewrite append_cons, contains_cons. rewrite (IH H). apply orb_true_r.
Qed.

Lemma contains_append_r (sub a b : string) :
  contains sub b = true -> contains sub (a ++ b) = true.
Proof.
  intros H. induction a as [|x a IH]; [now rewrite append_nil_l|].
  rewrite append_cons, contains_cons, IH. apply orb_true_r.
Qed.

Lemma contains_join (sub sep x : string) (l : list string) :
  In x l -> contains sub x = true -> contains sub (PyStr.join sep l) = true.
Proof.
  intros Hin Hx. induction l as [|y l IH]; [contradiction|].
  destruct Hin as [->|Hin].
  - destruct l; [exact Hx | now apply contains_append_l].
  - destruct l as [|z l]; [contradiction|].
    change (PyStr.join sep (y :: z :: l)) with (y ++ sep ++ PyStr.join sep (z :: l)).
    apply contains_append_r, contains_append_r, IH, Hin.
Qed.

Lemma lstrip_not_startswith (c : ascii) (s : string) :
  startswith (lstrip c s) (String c "") = false.
Proof.
  induction s as [|a s IH]; [reflexivity|].
  simpl lstrip. destruct (Ascii.eqb a c) eqn:E; [exact IH|].
  simpl. now rewrite E.
Qed.

(** Once [".."] is among the kept components it stays there: only
    components other than [".."] are ever dropped. *)
Lemma normpath_step_keeps (rooted : bool) (stack : list string) (comp : string) :
  In ".." stack -> In ".." (normpath_step rooted stack comp).
Proof.
  intros H. unfold normpath_step.
  destruct (String.eqb comp "" || String.eqb comp "."); [exact H|].
  destruct (negb (String.eqb comp "..") || _ || _) eqn:E; [now right|].
  destruct stack as [|top rest]; [contradiction|].
  apply orb_false_elim in E as [_ E]. apply String.eqb_neq in E.
  destruct H as [H|H]; [congruence | exact H].
Qed.

Lemma normpath_fold_keeps (rooted : bool) (comps stack : list string) :
  In ".." stack -> In ".." (fold_left (normpath_step rooted) comps stack).
Proof.
  revert stack. induction comps as [|c comps IH]; intros stack H; [exact H|].
  simpl. apply IH, normpath_step_keeps, H.
Qed.

Lemma climbs_keeps_dotdot (comps : list string) (depth : nat) (stack : list string) :
  at_depth depth stack -> climbs depth comps = true ->
  In ".." (fold_left (normpath_step false) comps stack).
Proof.
  revert depth stack. induction comps as [|c comps IH]; intros depth stack Hd Hc;
    [discriminate|].
  simpl in Hc. simpl fold_left. unfold normpath_step at 2.
  destruct (String.eqb c "" || String.eqb c "."); [now apply (IH depth)|].
  destruct (String.eqb_spec c "..") as [->|Hne].
  - destruct Hd as (ords & rest & -> & Hlen & Hords & Hrest).
    destruct ords as [|o ords]; simpl in Hlen; subst depth.
    + apply normpath_fold_keeps. simpl.
      destruct Hrest as [->|[r ->]]; simpl; auto.
    + inversion Hords as [|? ? Ho Hords']; subst. simpl.
      apply String.eqb_neq in Ho. rewrite Ho. simpl.
      apply (IH (List.length ords)); [|exact Hc].
      exists ords, rest. auto.
  - simpl. apply (IH (S depth)); [|exact Hc].
    destruct Hd as (ords & rest & -> & Hlen & Hords & Hrest).
    exists (c :: ords), rest. repeat split; simpl; auto.
Qed.

(** A relative path that steps above its starting point keeps a [".."]
    through normalization. *)
Lemma climbs_normpath (p : string) :
  startswith p "/" = false -> climbs 0 (split "/" p) = true ->
  contains ".." (normpath p) = true.
Proof.
  intros Hrel Hclimb. unfold normpath.
  destruct (truthy p) eqn:Hp; [|apply truthy_false in Hp; now subst].
  unfold initial_slashes. rewrite Hrel. simpl truthy. rewrite append_nil_l.
  assert (contains ".."
            (PyStr.join "/" (rev (fold_left (normpath_step false) (split "/" p) []))) = true)
    as H.
  { apply (contains_join _ _ ".."); [|reflexivity].
    apply -> in_rev. apply (climbs_keeps_dotdot _ 0); [|exact Hclimb].
    exists [], []. repeat split; auto. }
  destruct (PyStr.join "/" _) eqn:E; [discriminate | exact H].
Qed.

End PathFacts.

(** ** Serving files: the gate and the traversal check *)

Module ServeFacts.

Import OsPath Serve StrFacts HmacFacts SessionFacts RejectFacts PathSpec PathFacts.

Lemma serve_files_authenticated config fs secret request :
  verify_session_token secret (get_session_token request) = Ok true ->
  serve_files config fs secret request = resolve config fs (url_path request).
Proof. intros H. unfold serve_files. now rewrite H. Qed.

Lemma resolve_forbidden config fs path :
  contains ".." (normpath (lstrip "/" path)) = true ->
  resolve config fs path = Ok (Response "Forbidden" 403).
Proof. intros H. unfold resolve. now rewrite H. Qed.

(** C1, as the code has it. An authenticated request is answered 403
    whenever the normalized form of its path still contains [".."]; this is
    so in particular when the path steps above the sandbox root at some
    component. *)
Theorem traversal_forbidden config fs secret request :
  verify_session_token secret (get_session_token request) = Ok true ->
  contains ".." (normpath (lstrip "/" (url_path request))) = true \/
  climbs 0 (split "/" (lstrip "/" (url_path request))) = true ->
  serve_files config fs secret request = Ok (Response "Forbidden" 403).
Proof.
  intros Hauth H. rewrite serve_files_authenticated by exact Hauth.
  apply resolve_forbidden. destruct H as [H|H]; [exact H|].
  apply climbs_normpath; [apply lstrip_not_startswith | exact H].
Qed.

(** The path of the claim's example climbs above the root at its second [".."]. *)
Lemma traversal_forbidden_witness :
  serve_files Examples.config Examples.fs Examples.secret
    (Examples.get "/a/../../etc/passwd" Examples.token) = Ok (Response "Forbidden" 403).
Proof.
  apply traversal_forbidden; [vm_compute; reflexivity | right; vm_compute; reflexivity].
Defined.

(** C1, the claim as stated fails: this path contains ["../"], the
    normalization cancels it against the component before it, and the file
    [/srv/data/b] is served. *)
Lemma dotdot_inside_path_is_served :
  contains "../" "/a/../b" = true /\
  serve_files Examples.config Examples.fs Examples.secret
    (Examples.get "/a/../b" Examples.token) = Ok (FileResponse "/srv/data/b").
Proof. vm_compute. split; reflexivity. Qed.

(** Without an accepted token no file and no listing is returned. *)
Lemma no_content_without_token config fs secret request :
  verify_session_token secret (get_session_token request) <> Ok true ->
  (exists e, serve_files config fs secret request = Raise e) \/
  serve_files config fs secret request = Ok (Response "Unauthorized" 401) \/
  (url_path request = "/" /\
   serve_files config fs secret request =
   Ok (FileResponse (OsPath.join (repo_dir config) ["cdn"; "login.html"]))).
Proof.
  intros H. unfold serve_files.
  destruct (verify_session_token secret (get_session_token request)) as [[|]|e].
  - contradiction.
  - simpl. destruct (String.eqb_spec (url_path request) "/") as [E|_]; auto.
  - left. now exists e.
Qed.

(** C6, where the code leaves the claim: a session cookie whose part after
    the dot is the single character of code point 233 makes [serve_files]
    raise, whatever the path, instead of answering 401. *)
Theorem non_ascii_cookie_raises config fs secret path hdrs payload js :
  serve_files config fs secret
    {| url_path := path; cookies := {[ "session" := "a." ++ String "233"%char "" ]};
       headers := hdrs; body := payload; req_json := js |} =
  Raise (TypeError "comparing strings with non-ASCII characters is not supported").
Proof.
  unfold serve_files, get_session_token. cbn [cookies url_path].
  rewrite lookup_singleton_eq.
  change ("a." ++ String "233"%char "") with ("a" ++ "." ++ String "233"%char "").
  rewrite verify_raises by reflexivity. reflexivity.
Qed.

End ServeFacts.

(** ** Directory listings *)

Module FsFacts.

Import OsPath Serve StrFacts PathFacts ListingSpec.

Lemma split_nonempty (c : ascii) (s : string) : exists x xs, split c s = x :: xs.
Proof.
  induction s as [|a s (x & xs & IH)]; simpl; [eauto|].
  destruct (Ascii.eqb a c); [eauto|]. rewrite IH. eauto.
Qed.

Lemma split_append (c : ascii) (a b : string) :
  split c (a ++ String c b) = (split c a ++ split c b)%list.
Proof.
  induction a as [|x a IH].
  - rewrite append_nil_l. simpl. now rewrite Ascii.eqb_refl.
  - rewrite append_cons. simpl. rewrite IH.
    destruct (Ascii.eqb x c); [reflexivity|].
    destruct (split_nonempty c a) as (y & ys & ->). reflexivity.
Qed.

Lemma split_no_sep (c : ascii) (e : string) :
  contains (String c "") e = false -> split c e = [e].
Proof.
  induction e as [|a e IH]; [reflexivity|].
  rewrite contains_char_cons. intros [Ha He]%orb_false_elim.
  simpl. now rewrite Ha, (IH He).
Qed.

Lemma endswith_inv (a : string) (c : ascii) :
  endswith a c = true -> exists a', a = a' ++ String c "".
Proof.
  induction a as [|x a IH]; [discriminate|].
  destruct a as [|y a].
  - simpl. intros ->%Ascii.eqb_eq. now exists "".
  - intros H. destruct (IH H) as [a' ->]. now exists (String x a').
Qed.

Lemma walk_app (l1 l2 : list string) (anc : list node) (cur : node) :
  walk anc cur (l1 ++ l2) =
  match walk anc cur l1 with
  | Some (anc', cur') => walk anc' cur' l2
  | None => None
  end.
Proof.
  revert anc cur. induction l1 as [|c l1 IH]; intros anc cur; [reflexivity|].
  simpl. destruct cur as [| |entries]; try reflexivity.
  destruct (String.eqb c "" || String.eqb c "."); [apply IH|].
  destruct (String.eqb c "..").
  - destruct anc; apply IH.
  - destruct (child c entries); [apply IH | reflexivity].
Qed.

Lemma walk_empty_component (anc anc' : list node) (cur cur' : node) :
  walk anc cur [""] = Some (anc', cur') -> anc' = anc /\ cur' = cur.
Proof.
  simpl. destruct cur; try discriminate. simpl. now intros [= -> ->].
Qed.

Lemma startswith_append (a b : string) :
  truthy a = true -> startswith (a ++ b) "/" = startswith a "/".
Proof.
  destruct a as [|x a]; [discriminate|]. intros _. rewrite append_cons. reflexivity.
Qed.

Lemma startswith_sep_append (a x y : string) :
  startswith (a ++ String "/" x) "/" = startswith (a ++ String "/" y) "/".
Proof.
  destruct a as [|c a]; [reflexivity|]. rewrite !append_cons. reflexivity.
Qed.

Lemma not_startswith_sep (e : string) : contains "/" e = false -> startswith e "/" = false.
Proof.
  destruct e as [|x e]; [reflexivity|]. rewrite contains_char_cons.
  intros [Hx _]%orb_false_elim. simpl. now rewrite Hx.
Qed.

(** Resolving [os.path.join(a, e)] is resolving [a] and then the single
    component [e]. *)
Lemma walk_join (fs : filesystem) (a e : string) (anc : list node) (cur : node) :
  truthy a = true -> contains "/" e = false ->
  walk [] (root fs) (components fs a) = Some (anc, cur) ->
  walk [] (root fs) (components fs (OsPath.join a [e])) = walk anc cur [e].
Proof.
  intros Ha He Hwalk. unfold OsPath.join. simpl fold_left. unfold join_step.
  rewrite (not_startswith_sep _ He), Ha. simpl negb. simpl orb.
  destruct (endswith a "/") eqn:Hend.
  - destruct (endswith_inv _ _ Hend) as [a' ->].
    rewrite append_assoc. change ("/" ++ e) with (String "/" e).
    unfold components in *.
    rewrite (startswith_sep_append a' e "").
    rewrite split_append, (split_no_sep _ _ He).
    change "/"%string with (String "/" "") in Hwalk at 2.
    rewrite split_append in Hwalk. simpl (split "/" "") in Hwalk.
    rewrite app_assoc, walk_app in Hwalk. rewrite app_assoc, walk_app.
    destruct (walk [] (root fs) _) as [[anc1 cur1]|]; [|discriminate].
    apply walk_empty_component in Hwalk as [-> ->]. reflexivity.
  - change (a ++ "/" ++ e) with (a ++ String "/" e).
    unfold components in *. rewrite startswith_append by exact Ha.
    rewrite split_append, (split_no_sep _ _ He), app_assoc, walk_app, Hwalk.
    reflexivity.
Qed.

Lemma lookup_dir_inv (fs : filesystem) (a : string) (n : node) :
  lookup fs a = Some n ->
  truthy a = true /\ exists anc, walk [] (root fs) (components fs a) = Some (anc, n).
Proof.
  unfold lookup. destruct (truthy a); [|discriminate].
  destruct (walk _ _ _) as [[anc m]|]; [|discriminate].
  intros [= ->]. eauto.
Qed.

Lemma truthy_join (a e : string) : truthy e = true -> truthy (OsPath.join a [e]) = true.
Proof.
  intros He. unfold OsPath.join. simpl. unfold join_step.
  destruct (startswith e "/"); [exact He|].
  destruct (negb (truthy a) || endswith a "/"); repeat apply truthy_append_r; exact He.
Qed.

(** A valid name joined to a directory names the entry of that name. *)
Lemma lookup_join_entry (fs : filesystem) (a e : string) (entries : list (string * node)) :
  lookup fs a = Some (Dir entries) -> valid_name e = true ->
  lookup fs (OsPath.join a [e]) = child e entries.
Proof.
  intros (Ha & anc & Hwalk)%lookup_dir_inv Hvalid.
  unfold valid_name in Hvalid.
  apply andb_prop in Hvalid as [Hvalid Hdd]. apply andb_prop in Hvalid as [Hvalid Hd].
  apply andb_prop in Hvalid as [He Hsep].
  apply negb_true_iff in Hsep, Hd, Hdd.
  unfold lookup. rewrite truthy_join by exact He.
  rewrite (walk_join _ _ _ _ _ Ha Hsep Hwalk). simpl.
  destruct e as [|x e]; [discriminate|].
  change (String.eqb (String x e) "") with false. rewrite Hd, Hdd. simpl.
  now destruct (child (String x e) entries).
Qed.

(** Joining ["."] to a directory names the directory itself. *)
Lemma lookup_join_dot (fs : filesystem) (a : string) (entries : list (string * node)) :
  lookup fs a = Some (Dir entries) -> lookup fs (OsPath.join a ["."]) = Some (Dir entries).
Proof.
  intros (Ha & anc & Hwalk)%lookup_dir_inv.
  unfold lookup. rewrite truthy_join by reflexivity.
  now rewrite (walk_join fs a "." anc (Dir entries) Ha eq_refl Hwalk).
Qed.

End FsFacts.

Module ListingFacts.

Import OsPath Serve StrFacts PathFacts ListingSpec FsFacts ServeFacts.

Lemma child_in (e : string) (x : node) (entries : list (string * node)) :
  child e entries = Some x -> In (e, x) entries.
Proof.
  induction entries as [|[n y] r IH]; [discriminate|]. simpl.
  destruct (String.eqb_spec n e) as [->|_]; [intros [= ->]; now left | auto].
Qed.

Lemma existsb_eqb_in (e : string) (l : list string) :
  In e l -> existsb (String.eqb e) l = true.
Proof.
  intros H. apply existsb_exists. exists e. split; [exact H | apply String.eqb_refl].
Qed.

Lemma child_unique (e : string) (x : node) (entries : list (string * node)) :
  distinct (map fst entries) = true -> In (e, x) entries -> child e entries = Some x.
Proof.
  induction entries as [|[n y] r IH]; [contradiction|].
  simpl. intros [Hn Hr]%andb_prop [[= -> ->]|Hin].
  - now rewrite String.eqb_refl.
  - destruct (String.eqb_spec n e) as [->|_]; [|now apply IH].
    apply negb_true_iff in Hn.
    rewrite existsb_eqb_in in Hn; [discriminate|].
    apply (in_map fst) in Hin. exact Hin.
Qed.

Lemma distinct_NoDup (l : list string) : distinct l = true -> NoDup l.
Proof.
  induction l as [|x l IH]; [constructor|].
  simpl. intros [Hx Hl]%andb_prop. constructor; [|now apply IH].
  intros Hin. apply existsb_eqb_in in Hin. now rewrite Hin in Hx.
Qed.

Lemma fold_append (f : string -> string) (l : list string) (h : string) :
  fold_left (fun html x => html ++ f x) l h = h ++ flatten (map f l).
Proof.
  revert h. induction l as [|x l IH]; intros h; simpl.
  - now rewrite append_nil_r.
  - rewrite IH. unfold flatten. simpl. now rewrite append_assoc.
Qed.

Lemma render_listing_eq (path : string) (dirs files : list string) :
  render_listing path dirs files =
  "<html><body><h1>" ++ path ++ "</h1><ul>"
    ++ flatten (map (dir_item path) dirs)
    ++ flatten (map (file_item path) files)
    ++ "</ul></body></html>".
Proof.
  unfold render_listing. rewrite !fold_append. now rewrite !append_assoc.
Qed.

Lemma StronglySorted_filter {A} (R : A -> A -> Prop) (p : A -> bool) (l : list A) :
  StronglySorted R l -> StronglySorted R (List.filter p l).
Proof.
  induction 1 as [|x l Hl IH Hx]; simpl; [constructor|].
  destruct (p x); [|exact IH]. constructor; [exact IH|].
  apply Forall_forall. intros y [Hy _]%filter_In.
  now apply (proj1 (Forall_forall _ _) Hx).
Qed.

Lemma sorted_filter_Sorted (p : string -> bool) (l : list string) :
  Sorted String.le (List.filter p (sorted l)).
Proof.
  apply StronglySorted_Sorted, StronglySorted_filter.
  unfold sorted. apply StronglySorted_merge_sort; apply _.
Qed.

Lemma sorted_in (e : string) (l : list string) : In e (sorted l) <-> In e l.
Proof.
  unfold sorted. split; apply Permutation_in;
    [apply merge_sort_Permutation | symmetry; apply merge_sort_Permutation].
Qed.

Lemma sorted_filter_NoDup (p : string -> bool) (l : list string) :
  NoDup l -> NoDup (List.filter p (sorted l)).
Proof.
  intros H. apply List.NoDup_filter.
  eapply Permutation_NoDup; [symmetry; apply merge_sort_Permutation | exact H].
Qed.

Lemma entry_valid (e : string) (entries : list (string * node)) :
  well_formed entries = true -> In e (map fst entries) -> valid_name e = true.
Proof.
  unfold well_formed. intros [Hv _]%andb_prop ([n x] & <- & Hin)%in_map_iff.
  exact (proj1 (forallb_forall _ _) Hv _ Hin).
Qed.

(** A directory inside the sandbox is listed by [resolve]. *)
Lemma resolve_lists config fs path entries :
  contains ".." (normpath (lstrip "/" path)) = false ->
  lookup fs (full_path_of config (normpath (lstrip "/" path))) = Some (Dir entries) ->
  well_formed entries = true ->
  lists path entries (resolve config fs path).
Proof.
  intros Hsafe Hdir Hwf. unfold resolve. rewrite Hsafe.
  set (full := full_path_of config (normpath (lstrip "/" path))) in *.
  unfold isdir, listdir. rewrite Hdir. simpl result_bind.
  pose proof Hwf as [_ Hdistinct]%andb_prop.
  exists (visible_dirs fs full (sorted (map fst entries))),
         (visible_files fs full (sorted (map fst entries))).
  split; [now rewrite render_listing_eq|].
  split; [apply sorted_filter_Sorted|].
  split; [apply sorted_filter_Sorted|].
  split; [apply sorted_filter_NoDup, distinct_NoDup, Hdistinct|].
  split; [apply sorted_filter_NoDup, distinct_NoDup, Hdistinct|].
  split; intros e.
  - unfold visible_dirs, isdir, hidden. rewrite filter_In, sorted_in. split.
    + intros [Hin [Hd Hv]%andb_prop].
      rewrite (lookup_join_entry _ _ _ _ Hdir (entry_valid _ _ Hwf Hin)) in Hd.
      destruct (child e entries) as [[| |sub]|] eqn:Hc; try discriminate.
      apply negb_true_iff in Hv. split; [|exact Hv].
      exists sub. now apply child_in.
    + intros [[sub Hin] Hv].
      assert (In e (map fst entries)) as Hname by exact (in_map fst _ _ Hin).
      split; [exact Hname|].
      rewrite (lookup_join_entry _ _ _ _ Hdir (entry_valid _ _ Hwf Hname)).
      rewrite (child_unique _ _ _ Hdistinct Hin), Hv. reflexivity.
  - unfold visible_files, isfile, hidden. rewrite filter_In, sorted_in. split.
    + intros [Hin [Hd Hv]%andb_prop].
      rewrite (lookup_join_entry _ _ _ _ Hdir (entry_valid _ _ Hwf Hin)) in Hd.
      destruct (child e entries) as [[| |sub]|] eqn:Hc; try discriminate.
      apply negb_true_iff in Hv. split; [|exact Hv].
      now apply child_in.
    + intros [Hin Hv].
      assert (In e (map fst entries)) as Hname by exact (in_map fst _ _ Hin).
      split; [exact Hname|].
      rewrite (lookup_join_entry _ _ _ _ Hdir (entry_valid _ _ Hwf Hname)).
      rewrite (child_unique _ _ _ Hdistinct Hin), Hv. reflexivity.
Qed.

(** C7, as the code has it. For an authenticated request whose path
    resolves to a directory inside the sandbox, the response is the
    listing of that directory: its entries that are directories or regular
    files and are not hidden, directories first, each group sorted; entries
    of any other kind are left out. The empty path and ["/"] list the
    sandbox root itself. *)
Theorem directory_listing config fs secret request entries :
  verify_session_token secret (get_session_token request) = Ok true ->
  well_formed entries = true ->
  (contains ".." (normpath (lstrip "/" (url_path request))) = false ->
   lookup fs (full_path_of config (normpath (lstrip "/" (url_path request))))
     = Some (Dir entries) ->
   lists (url_path request) entries (serve_files config fs secret request)) /\
  (url_path request = "" \/ url_path request = "/" ->
   lookup fs (data_dir config) = Some (Dir entries) ->
   lists (url_path request) entries (serve_files config fs secret request)).
Proof.
  intros Hauth Hwf. rewrite serve_files_authenticated by exact Hauth. split.
  - intros Hsafe Hdir. now apply resolve_lists.
  - intros Hroot Hdir.
    assert (normpath (lstrip "/" (url_path request)) = ".") as Hnorm
      by (destruct Hroot as [-> | ->]; reflexivity).
    apply resolve_lists; [now rewrite Hnorm | | exact Hwf].
    rewrite Hnorm. unfold full_path_of. simpl truthy. cbv iota.
    now apply lookup_join_dot.
Qed.

(** The directory [/srv/data/a] and the sandbox root of the example. *)
Lemma directory_listing_witness :
  lists "/a/" [("x", File)]
    (serve_files Examples.config Examples.fs Examples.secret
       (Examples.get "/a/" Examples.token)) /\
  lists "/" Examples.data_entries
    (serve_files Examples.config Examples.fs Examples.secret
       (Examples.get "/" Examples.token)).
Proof.
  split.
  - refine (proj1 (directory_listing Examples.config Examples.fs Examples.secret
                     (Examples.get "/a/" Examples.token) [("x", File)] _ _) _ _);
      vm_compute; reflexivity.
  - refine (proj2 (directory_listing Examples.config Examples.fs Examples.secret
                     (Examples.get "/" Examples.token) Examples.data_entries _ _) _ _);
      [vm_compute; reflexivity | vm_compute; reflexivity | now right | vm_compute; reflexivity].
Defined.

(** C7, the claim as stated fails: the sandbox root of the example holds
    the FIFO [pipe], which is not hidden, and the listing of the root
    shows the directories [a] and [zdir] and the files [B] and [b] only. *)
Lemma special_entry_not_listed :
  lookup Examples.fs (data_dir Examples.config) = Some (Dir Examples.data_entries) /\
  In ("pipe", Special) Examples.data_entries /\ hidden "pipe" = false /\
  serve_files Examples.config Examples.fs Examples.secret
    (Examples.get "/" Examples.token) =
  Ok (HTMLResponse (render_listing "/" ["a"; "zdir"] ["B"; "b"])).
Proof.
  split; [reflexivity|]. split; [simpl; tauto|]. split; [reflexivity|].
  vm_compute. reflexivity.
Qed.

End ListingFacts.

(** ** Login *)

Module LoginFacts.

Import Serve StrFacts HmacFacts.

(** Without a usable ["hash"] the handler compares the empty string. *)
Lemma login_compares_empty config secret entropy request :
  (req_json request = None \/
   exists d, req_json request = Some (JObject d) /\ d !! "hash" = None) ->
  login config secret entropy request =
  result_bind (Hmac.compare_digest "" (password_hash config)) (fun matches =>
    if matches then
      Ok (JSONResponse (JObject {[ "ok" := JBool true ]}) 200
            [session_cookie (create_session_token secret entropy)])
    else Ok (JSONResponse (JObject {[ "ok" := JBool false ]}) 401 [])).
Proof.
  intros H. unfold login, request_json.
  destruct H as [-> | (d & -> & Hd)]; simpl; [reflexivity|].
  now rewrite Hd.
Qed.

(** C9, as the code has it. When the body is absent or not JSON, or is a
    JSON object without ["hash"], the handler compares the empty string
    with the configured hash; for a configured hash that is ASCII text the
    answer is 401 without a cookie, unless the configured hash is empty, and
    then it is 200 with a session cookie. *)
Theorem login_without_hash config secret entropy request :
  (req_json request = None \/
   exists d, req_json request = Some (JObject d) /\ d !! "hash" = None) ->
  isascii (password_hash config) = true ->
  login config secret entropy request =
  if String.eqb (password_hash config) "" then
    Ok (JSONResponse (JObject {[ "ok" := JBool true ]}) 200
          [session_cookie (create_session_token secret entropy)])
  else Ok (JSONResponse (JObject {[ "ok" := JBool false ]}) 401 []).
Proof.
  intros Hreq Hascii. rewrite login_compares_empty by exact Hreq.
  rewrite compare_digest_ascii by (reflexivity || exact Hascii).
  now destruct (password_hash config).
Qed.

(** A login without body, and one whose JSON object has no ["hash"]. *)
Lemma login_without_hash_witness :
  login Examples.config Examples.secret (repeat x01 16) (Examples.post None [] None) =
    Ok (JSONResponse (JObject {[ "ok" := JBool false ]}) 401 []) /\
  login Examples.config Examples.secret (repeat x01 16)
    (Examples.post None [] (Some (JObject {[ "user" := JString "x" ]}))) =
    Ok (JSONResponse (JObject {[ "ok" := JBool false ]}) 401 []).
Proof.
  split.
  - apply (login_without_hash Examples.config); [now left | reflexivity].
  - apply (login_without_hash Examples.config); [right | reflexivity].
    exists {[ "user" := JString "x" ]}. split; [reflexivity | vm_compute; reflexivity].
Defined.

(** C9, the claim as stated fails: with the configured hash the single
    character of code point 233 (not empty), a login without body is
    answered neither 401 nor 200: the comparison raises. *)
Lemma login_non_ascii_hash_raises :
  let config := {| data_dir := "/srv/data"; repo_dir := "/srv/repo";
                   password_hash := String "233"%char "";
                   webhook_secret := "s3cr3t"; port := 8888 |} in
  login config Examples.secret (repeat x01 16) (Examples.post None [] None) =
  Raise (TypeError "comparing strings with non-ASCII characters is not supported").
Proof. reflexivity. Qed.

End LoginFacts.

(** ** Webhook *)

Module WebhookFacts.

Import Serve StrFacts HmacFacts WebhookSpec.

(** What [redeploy] does, by the outcome of each command. *)
Lemma redeploy_cases config w log :
  redeploy config w log =
  match run_result w (fetch_argv config) with
  | RunFails e =>
      (Ok (Response ("Error: " ++ exn_text e) 500), log ++ [Ran (fetch_argv config)])%list
  | Exited rc _ =>
      if (rc =? 0)%Z then
        match run_result w (reset_argv config) with
        | RunFails e =>
            (Ok (Response ("Error: " ++ exn_text e) 500),
             (log ++ [Ran (fetch_argv config)]) ++ [Ran (reset_argv config)])%list
        | Exited rc' err =>
            if (rc' =? 0)%Z then
              match popen_result w [start_script config] with
              | None =>
                  (Ok restarted,
                   ((log ++ [Ran (fetch_argv config)]) ++ [Ran (reset_argv config)])
                     ++ [Spawned [start_script config]])%list
              | Some e =>
                  (Ok (Response ("Error: " ++ exn_text e) 500),
                   (log ++ [Ran (fetch_argv config)]) ++ [Ran (reset_argv config)])%list
              end
            else
              (Ok (Response ("Git reset failed: " ++ err) 500),
               (log ++ [Ran (fetch_argv config)]) ++ [Ran (reset_argv config)])%list
        end
      else
        (Ok (Response ("Error: " ++ exn_text (CalledProcessError rc)) 500),
         log ++ [Ran (fetch_argv config)])%list
  end.
Proof.
  unfold redeploy, try_, bind, subprocess_run, subprocess_Popen, bind, emit, ret, raise,
    start_script, restarted.
  destruct (run_result w (fetch_argv config)) as [rc err|e]; [|reflexivity].
  simpl. destruct (rc =? 0)%Z; [|reflexivity]. simpl.
  destruct (run_result w (reset_argv config)) as [rc' err'|e']; [|reflexivity].
  simpl. destruct (rc' =? 0)%Z; [|reflexivity]. simpl.
  destruct (popen_result w _); reflexivity.
Qed.

Lemma truthy_ne (s : string) : s <> "" -> truthy s = true.
Proof. destruct s; [congruence | reflexivity]. Qed.

Lemma expected_signature_ascii config payload :
  isascii (expected_signature config payload) = true.
Proof.
  unfold expected_signature. rewrite isascii_append.
  now rewrite (proj1 (hexdigest_plain _ _)).
Qed.

Lemma webhook_unconfigured config w request log :
  webhook_secret config = "" \/ repo_dir config = "" ->
  webhook config w request log = (Ok (Response "Webhook not configured" 500), log).
Proof.
  intros H. unfold webhook.
  destruct H as [-> | ->]; simpl; [reflexivity | now rewrite orb_true_r].
Qed.

(** Before the signature is accepted nothing is run; once it is, the
    handler is [redeploy]. *)
Lemma webhook_gate config w request log :
  webhook config w request log = redeploy config w log \/
  (snd (webhook config w request log) = log /\
   fst (webhook config w request log) <> Ok restarted).
Proof.
  unfold webhook.
  destruct (negb (truthy (webhook_secret config)) || negb (truthy (repo_dir config)));
    [right; split; [reflexivity | discriminate]|].
  destruct (negb (startswith (signature_header request) "sha256="));
    [right; split; [reflexivity | discriminate]|].
  unfold bind, lift.
  destruct (Hmac.compare_digest _ _) as [[|]|e]; simpl.
  - now left.
  - right. split; [reflexivity | discriminate].
  - right. split; [reflexivity | discriminate].
Qed.

(** C5, as the code has it. The checks come in this order: an empty
    secret or an empty repository directory gives 500; else a header that
    is missing or does not start with [sha256=] gives 401; else an ASCII
    header gives 401 when it differs from the expected signature of the raw
    body and hands over to [redeploy] when it equals it. *)
Theorem webhook_checks_in_order config w request log :
  (webhook_secret config = "" \/ repo_dir config = "" ->
   webhook config w request log = (Ok (Response "Webhook not configured" 500), log)) /\
  (webhook_secret config <> "" -> repo_dir config <> "" ->
   (startswith (signature_header request) "sha256=" = false ->
    webhook config w request log = (Ok (Response "Missing signature" 401), log)) /\
   (startswith (signature_header request) "sha256=" = true ->
    isascii (signature_header request) = true ->
    (signature_header request <> expected_signature config (body request) ->
     webhook config w request log = (Ok (Response "Invalid signature" 401), log)) /\
    (signature_header request = expected_signature config (body request) ->
     webhook config w request log = redeploy config w log))).
Proof.
  split; [apply webhook_unconfigured|].
  intros Hsecret%truthy_ne Hrepo%truthy_ne. unfold webhook. rewrite Hsecret, Hrepo. simpl.
  split.
  - now intros ->.
  - intros -> Hascii. simpl. unfold bind, lift.
    rewrite compare_digest_ascii by (exact Hascii || apply expected_signature_ascii).
    split; intros H.
    + apply String.eqb_neq in H. now rewrite H.
    + apply String.eqb_eq in H. now rewrite H.
Qed.

(** The secret [s3cr3t] and the body [payload]: the right header is handed
    to [redeploy], the header with one character changed is answered 401, a
    missing header is answered 401, and an empty secret is answered 500. *)
Lemma webhook_checks_in_order_witness :
  let unconfigured := {| data_dir := "/srv/data"; repo_dir := "/srv/repo";
                         password_hash := "abc"; webhook_secret := ""; port := 8888 |} in
  let request header := Examples.post header Examples.payload None in
  webhook unconfigured Examples.world_ok (request (Some Examples.good_header)) [] =
    (Ok (Response "Webhook not configured" 500), []) /\
  webhook Examples.config Examples.world_ok (request None) [] =
    (Ok (Response "Missing signature" 401), []) /\
  webhook Examples.config Examples.world_ok (request (Some Examples.bad_header)) [] =
    (Ok (Response "Invalid signature" 401), []) /\
  webhook Examples.config Examples.world_ok (request (Some Examples.good_header)) [] =
    redeploy Examples.config Examples.world_ok [].
Proof.
  intros unconfigured request. split; [|split; [|split]].
  - apply (webhook_checks_in_order unconfigured). now left.
  - apply (webhook_checks_in_order Examples.config);
      [discriminate | discriminate | vm_compute; reflexivity].
  - apply (webhook_checks_in_order Examples.config);
      [ discriminate | discriminate | vm_compute; reflexivity | vm_compute; reflexivity
      | vm_compute; discriminate ].
  - apply (webhook_checks_in_order Examples.config);
      [ discriminate | discriminate | vm_compute; reflexivity | vm_compute; reflexivity
      | vm_compute; reflexivity ].
Defined.

(** C5, the claim as stated fails: with the secret configured and the
    repository directory empty, a request without signature header is
    answered 500 "not configured", not 401. *)
Lemma configured_secret_still_unconfigured :
  let config := {| data_dir := "/srv/data"; repo_dir := "";
                   password_hash := "abc"; webhook_secret := "s3cr3t"; port := 8888 |} in
  webhook_secret config <> "" /\
  signature_header (Examples.post None Examples.payload None) = "" /\
  webhook config Examples.world_ok (Examples.post None Examples.payload None) [] =
    (Ok (Response "Webhook not configured" 500), []).
Proof. split; [discriminate|]. split; vm_compute; reflexivity. Qed.

(** C10. The detached restart is started only when the handler answers
    "OK, restarting..." after [git fetch] and [git reset] both exited with
    0, and it is the last thing the handler does; whenever the handler
    answers anything else, or raises, nothing was started. *)
Theorem restart_only_after_sync config w request :
  let r := fst (webhook config w request []) in
  let events := snd (webhook config w request []) in
  (forall argv, In (Spawned argv) events ->
     r = Ok restarted /\
     (exists err, run_result w (fetch_argv config) = Exited 0 err) /\
     (exists err, run_result w (reset_argv config) = Exited 0 err) /\
     events = [Ran (fetch_argv config); Ran (reset_argv config); Spawned argv]) /\
  (r <> Ok restarted -> forall argv, ~ In (Spawned argv) events).
Proof.
  intros r events.
  assert (forall argv, In (Spawned argv) events ->
            r = Ok restarted /\
            (exists err, run_result w (fetch_argv config) = Exited 0 err) /\
            (exists err, run_result w (reset_argv config) = Exited 0 err) /\
            events = [Ran (fetch_argv config); Ran (reset_argv config); Spawned argv])
    as Hspawn.
  { subst r events. intros argv.
    destruct (webhook_gate config w request []) as [-> | [-> _]]; [|contradiction].
    rewrite redeploy_cases.
    destruct (run_result w (fetch_argv config)) as [rc err|e].
    - destruct (Z.eqb_spec rc 0) as [->|_].
      + destruct (run_result w (reset_argv config)) as [rc' err'|e'].
        * destruct (Z.eqb_spec rc' 0) as [->|_].
          -- destruct (popen_result w _); simpl.
             ++ intros [H|[H|[]]]; discriminate.
             ++ intros [H|[H|[[= <-]|[]]]]; try discriminate. eauto 10.
          -- simpl. intros [H|[H|[]]]; discriminate.
        * simpl. intros [H|[H|[]]]; discriminate.
      + simpl. intros [H|[]]; discriminate.
    - simpl. intros [H|[]]; discriminate. }
  split; [exact Hspawn|].
  intros Hr argv Hin. now destruct (Hspawn argv Hin) as [? _].
Qed.

(** When every command succeeds the restart script is the last process
    started; when [git reset] exits with 128 the answer is 500 and nothing
    is started. *)
Lemma restart_only_after_sync_witness :
  let request := Examples.post (Some Examples.good_header) Examples.payload None in
  (webhook Examples.config Examples.world_ok request [] =
     (Ok restarted,
      [Ran (fetch_argv Examples.config); Ran (reset_argv Examples.config);
       Spawned ["/srv/repo/cdn/start-cdn.sh"]])) /\
  (fst (webhook Examples.config Examples.world_reset_fails request []) =
     Ok (Response "Git reset failed: fatal: ambiguous argument" 500) /\
   forall argv,
     ~ In (Spawned argv) (snd (webhook Examples.config Examples.world_reset_fails request []))).
Proof.
  intros request. split; [vm_compute; reflexivity|].
  split; [vm_compute; reflexivity|].
  apply (restart_only_after_sync Examples.config Examples.world_reset_fails request).
  vm_compute. discriminate.
Defined.

End WebhookFacts.

(** * Further properties of the handlers *)

(** ** Issued tokens *)

Module TokenFacts.

Import Serve StrFacts HmacFacts SessionFacts CountingFacts FsFacts CoverageSpec.

Lemma hex_digit_is_hex (n : Z) : (0 <= n < 16)%Z -> is_hex_digit (hex_digit n) = true.
Proof.
  intros H. rewrite <- (Z2Nat.id n) by lia.
  assert (Z.to_nat n < 16)%nat as Hk by lia. revert Hk. generalize (Z.to_nat n) as k.
  intros k Hk. do 16 (destruct k as [|k]; [reflexivity|]). lia.
Qed.

Lemma all_chars_append (p : ascii -> bool) (a b : string) :
  all_chars p (a ++ b) = all_chars p a && all_chars p b.
Proof.
  induction a as [|x a IH]; [reflexivity|].
  rewrite append_cons. simpl. now rewrite IH, andb_assoc.
Qed.

Lemma all_chars_take (p : ascii -> bool) (n : nat) (s : string) :
  all_chars p s = true -> all_chars p (take n s) = true.
Proof.
  revert s. induction n as [|n IH]; intros [|a s]; simpl; auto.
  intros [Ha Hs]%andb_prop. rewrite Ha. simpl. auto.
Qed.

Lemma hexlify_hex (b : bytes) : all_chars is_hex_digit (hexlify b) = true.
Proof.
  induction b as [|x b IH]; [reflexivity|].
  rewrite hexlify_cons. pose proof (byte_to_Z_range x) as Hx. cbn [all_chars].
  rewrite !hex_digit_is_hex, IH; [reflexivity | |].
  - apply Z.mod_pos_bound. lia.
  - split; [apply Z.div_pos; lia | apply Z.div_lt_upper_bound; lia].
Qed.

Lemma length_token_hex (n : nat) (entropy : bytes) :
  (n <= List.length entropy)%nat -> String.length (token_hex n entropy) = (2 * n)%nat.
Proof.
  intros H. unfold token_hex. rewrite length_hexlify, length_firstn. lia.
Qed.

(** X1. With at least sixteen random bytes, an issued token is 49
    characters: 32 hexadecimal digits, one dot, 16 hexadecimal digits. It is
    ASCII text, and cutting it at dots gives back exactly the data and its
    signature. *)
Theorem issued_token_format (SESSION_SECRET : string) (entropy : bytes) :
  (16 <= List.length entropy)%nat ->
  let data := token_hex 16 entropy in
  let sig := signature SESSION_SECRET data in
  let token := create_session_token SESSION_SECRET entropy in
  String.length token = 49%nat /\ isascii token = true /\
  split "." token = [data; sig] /\
  String.length data = 32%nat /\ all_chars is_hex_digit data = true /\
  String.length sig = 16%nat /\ all_chars is_hex_digit sig = true.
Proof.
  intros Hlen data sig token.
  assert (String.length data = 32%nat) as Hdata by now apply (length_token_hex 16).
  assert (String.length sig = 16%nat) as Hsig by apply length_signature.
  destruct (hexlify_plain (firstn 16 entropy)) as [Hascii Hdot].
  fold (token_hex 16 entropy) in Hascii, Hdot. fold data in Hascii, Hdot.
  split; [|split; [|split; [|split; [|split; [|split]]]]].
  - subst token. unfold create_session_token. fold data sig.
    rewrite !length_append, Hdata, Hsig. reflexivity.
  - subst token. unfold create_session_token. fold data sig.
    rewrite !isascii_append, Hascii. subst sig. now rewrite signature_ascii.
  - subst token. unfold create_session_token. fold data sig.
    change ("." ++ sig) with (String "." sig).
    rewrite split_append, (split_no_sep _ _ Hdot).
    subst sig. now rewrite (split_no_sep _ _ (signature_no_dot _ _)).
  - exact Hdata.
  - apply hexlify_hex.
  - exact Hsig.
  - apply all_chars_take, hexlify_hex.
Qed.

(** Sixteen bytes of entropy, all 1, under the all-zero secret. *)
Lemma issued_token_format_witness :
  String.length (create_session_token Examples.secret (repeat x01 16)) = 49%nat /\
  split "." (create_session_token Examples.secret (repeat x01 16)) =
    ["01010101010101010101010101010101"; "1cb8b770f7781201"].
Proof.
  destruct (issued_token_format Examples.secret (repeat x01 16)) as (H1 & _ & H2 & _);
    [simpl; lia|].
  split; [exact H1|]. rewrite H2. vm_compute. reflexivity.
Defined.

(** X2. Two tokens issued under one secret are equal only if the sixteen
    bytes their data was drawn from are equal: different random draws never
    give the same token. *)
Theorem equal_tokens_equal_entropy (SESSION_SECRET : string) (e1 e2 : bytes) :
  create_session_token SESSION_SECRET e1 = create_session_token SESSION_SECRET e2 ->
  firstn 16 e1 = firstn 16 e2.
Proof.
  unfold create_session_token. intros H.
  apply (f_equal (rsplit1 ".")) in H.
  change ("." ++ signature SESSION_SECRET (token_hex 16 e1))
    with (String "." (signature SESSION_SECRET (token_hex 16 e1))) in H.
  change ("." ++ signature SESSION_SECRET (token_hex 16 e2))
    with (String "." (signature SESSION_SECRET (token_hex 16 e2))) in H.
  rewrite !rsplit1_cut in H by apply signature_no_dot.
  injection H as H _. now apply hexlify_inj.
Qed.

Lemma equal_tokens_equal_entropy_witness :
  firstn 16 (repeat x01 16 ++ [x02])%list = firstn 16 (repeat x01 16 ++ [x03])%list.
Proof. apply (equal_tokens_equal_entropy Examples.secret). reflexivity. Defined.

(** X3. [verify_session_token] raises in one case only: the token has a
    dot and the part after its last dot holds a non-ASCII character; the
    exception is then the [TypeError] of [hmac.compare_digest]. For every
    other token, absent or present, it returns a boolean. *)
Theorem verify_raises_iff (SESSION_SECRET : string) (token : option string) (e : exn) :
  verify_session_token SESSION_SECRET token = Raise e <->
  e = TypeError "comparing strings with non-ASCII characters is not supported" /\
  exists data sig,
    token = Some (data ++ "." ++ sig) /\ contains "." sig = false /\ isascii sig = false.
Proof.
  split.
  - destruct token as [token|]; [|discriminate]. intros H.
    destruct (contains "." token) eqn:Hdot.
    + destruct (rsplit1_sep _ _ Hdot) as (d & g & -> & Hg).
      change (String "." g) with ("." ++ g) in *.
      rewrite verify_cut in H by exact Hg.
      unfold Hmac.compare_digest in H. rewrite signature_ascii, andb_true_r in H.
      destruct (isascii g) eqn:Hascii; [discriminate|].
      injection H as <-. split; [reflexivity|]. now exists d, g.
    + rewrite verify_no_dot in H by exact Hdot. discriminate.
  - intros [-> (d & g & -> & Hg & Hascii)]. now apply RejectFacts.verify_raises.
Qed.

End TokenFacts.

(** ** The gate of [serve_files] *)

Module GateFacts.

Import OsPath Serve StrFacts HmacFacts SessionFacts ServeFacts CoverageSpec.



Lemma accepted_token_signed (SESSION_SECRET : string) (token : option string) :
  verify_session_token SESSION_SECRET token = Ok true ->
  exists data, token = Some (data ++ "." ++ signature SESSION_SECRET data).
Proof.
  destruct token as [token|]; [|discriminate]. intros H.
  destruct (contains "." token) eqn:Hdot.
  - destruct (rsplit1_sep _ _ Hdot) as (d & g & -> & Hg).
    change (String "." g) with ("." ++ g) in H.
    rewrite verify_cut in H by exact Hg.
    apply compare_digest_true in H. subst g. now exists d.
  - rewrite verify_no_dot in H by exact Hdot. discriminate.
Qed.

(** X5. Files and listings go to signed cookies only: when [serve_files]
    answers with anything but 401 or the login page, the request carried a
    session cookie made of some data, a dot and the signature of that data
    under [SESSION_SECRET], and the answer is the one [resolve] gives for
    the path. *)
Theorem content_needs_signed_cookie config fs SESSION_SECRET request resp :
  serve_files config fs SESSION_SECRET request = Ok resp ->
  resp <> Response "Unauthorized" 401 ->
  resp <> FileResponse (OsPath.join (repo_dir config) ["cdn"; "login.html"]) ->
  (exists data,
     cookies request !! "session" =
       Some (data ++ "." ++ signature SESSION_SECRET data)) /\
  resolve config fs (url_path request) = Ok resp.
Proof.
  intros Hserved Hnot401 Hnotpage. unfold serve_files in Hserved.
  destruct (verify_session_token SESSION_SECRET (get_session_token request))
    as [[|]|e] eqn:Hverify; cbn [result_bind negb] in Hserved.
  - split; [exact (accepted_token_signed _ _ Hverify) | exact Hserved].
  - destruct (String.eqb (url_path request) "/"); congruence.
  - discriminate.
Qed.

(** The file [/srv/data/a/x], asked for with an issued token. *)
Lemma content_needs_signed_cookie_witness :
  (exists data,
     cookies (Examples.get "/a/x" Examples.token) !! "session" =
       Some (data ++ "." ++ signature Examples.secret data)) /\
  resolve Examples.config Examples.fs "/a/x" = Ok (FileResponse "/srv/data/a/x").
Proof.
  apply (content_needs_signed_cookie Examples.config Examples.fs Examples.secret
           (Examples.get "/a/x" Examples.token) (FileResponse "/srv/data/a/x"));
    [vm_compute; reflexivity | discriminate | vm_compute; discriminate].
Defined.

End GateFacts.

(** ** Outcomes of [login] *)

Module LoginOutcomes.

Import Serve StrFacts HmacFacts SessionFacts ServeFacts CoverageSpec.

Lemma login_by_received_hash config secret entropy request :
  login config secret entropy request =
  result_bind (compare_digest_value (received_hash request) (password_hash config))
    (fun matches => if matches then Ok (logged_in secret entropy) else Ok login_refused).
Proof.
  unfold login, request_json, received_hash, logged_in, login_refused.
  destruct (req_json request) as [[| | | | |d]|]; reflexivity.
Qed.

Lemma logged_in_not_refused secret entropy : logged_in secret entropy <> login_refused.
Proof. unfold logged_in, login_refused. intros [= _ H]. Qed.

(** X6. [login] answers 200 with the session cookie exactly when the
    submitted hash is a string equal to the configured hash and that hash is
    ASCII text; every other answer it returns is the 401 without cookie. A
    body that is JSON but not an object counts as an empty hash. *)
Theorem login_succeeds_iff config SESSION_SECRET entropy request :
  (login config SESSION_SECRET entropy request = Ok (logged_in SESSION_SECRET entropy) <->
   received_hash request = JString (password_hash config) /\
   isascii (password_hash config) = true) /\
  (forall resp, login config SESSION_SECRET entropy request = Ok resp ->
     resp = logged_in SESSION_SECRET entropy \/ resp = login_refused).
Proof.
  rewrite login_by_received_hash. split; [split|].
  - destruct (received_hash request) as [| | |h| |]; try discriminate. simpl.
    destruct (Hmac.compare_digest h (password_hash config)) as [[|]|e] eqn:E; simpl.
    + intros _. pose proof (compare_digest_true _ _ E) as ->. split; [reflexivity|].
      unfold Hmac.compare_digest in E.
      destruct (isascii (password_hash config)); [reflexivity | discriminate].
    + intros H. exfalso. apply (logged_in_not_refused SESSION_SECRET entropy). congruence.
    + discriminate.
  - intros [-> Hascii]. simpl.
    rewrite compare_digest_ascii by exact Hascii. now rewrite String.eqb_refl.
  - intros resp.
    destruct (compare_digest_value _ _) as [[|]|e]; simpl; intros [= <-]; auto.
Qed.

(** X7. [login] raises, instead of answering, exactly when the submitted
    hash is not a string (a number, [null], a list, an object, a boolean) or
    when it or the configured hash holds a non-ASCII character. *)
Theorem login_raises_iff config SESSION_SECRET entropy request :
  (exists e, login config SESSION_SECRET entropy request = Raise e) <->
  match received_hash request with
  | JString h => isascii h = false \/ isascii (password_hash config) = false
  | _ => True
  end.
Proof.
  rewrite login_by_received_hash.
  destruct (received_hash request) as [| | |h| |]; simpl;
    try solve [split; [trivial | intros _; eauto]].
  unfold Hmac.compare_digest.
  destruct (isascii h), (isascii (password_hash config)); simpl.
  - split; [intros [e He] | intros [H|H]; discriminate].
    destruct (Hmac.tscmp _ _); discriminate.
  - split; eauto.
  - split; eauto.
  - split; eauto.
Qed.

(** X8. The cookie of a successful login opens the gate: when the
    submitted hash is the configured ASCII hash, [login] sets a cookie named
    [session], and every request that sends it back under the same secret is
    served as an authenticated one. *)
Theorem login_cookie_passes_gate config SESSION_SECRET entropy request :
  received_hash request = JString (password_hash config) ->
  isascii (password_hash config) = true ->
  exists cookie,
    login config SESSION_SECRET entropy request =
      Ok (JSONResponse (JObject {[ "ok" := JBool true ]}) 200 [cookie]) /\
    cookie_key cookie = "session" /\
    forall fs (later : Request),
      cookies later !! cookie_key cookie = Some (cookie_value cookie) ->
      serve_files config fs SESSION_SECRET later = resolve config fs (url_path later).
Proof.
  intros Hreceived Hascii.
  exists (session_cookie (create_session_token SESSION_SECRET entropy)).
  split; [|split; [reflexivity|]].
  - rewrite login_by_received_hash, Hreceived. simpl.
    rewrite compare_digest_ascii by exact Hascii. now rewrite String.eqb_refl.
  - intros fs later Hcookie. apply serve_files_authenticated.
    unfold get_session_token. simpl in Hcookie. rewrite Hcookie.
    unfold create_session_token. apply verify_signed.
Qed.

(** The hash [abc] of the example, submitted as it is configured; the
    cookie then lists the sandbox root. *)
Lemma login_cookie_passes_gate_witness :
  exists cookie,
    login Examples.config Examples.secret (repeat x01 16)
      (Examples.post None [] (Some (JObject {[ "hash" := JString "abc" ]}))) =
      Ok (JSONResponse (JObject {[ "ok" := JBool true ]}) 200 [cookie]) /\
    serve_files Examples.config Examples.fs Examples.secret
      (Examples.get "/" (cookie_value cookie)) =
    resolve Examples.config Examples.fs "/".
Proof.
  destruct (login_cookie_passes_gate Examples.config Examples.secret (repeat x01 16)
              (Examples.post None [] (Some (JObject {[ "hash" := JString "abc" ]}))))
    as (cookie & Hlogin & Hkey & Hgate); [vm_compute; reflexivity | reflexivity|].
  exists cookie. split; [exact Hlogin|].
  apply (Hgate Examples.fs (Examples.get "/" (cookie_value cookie))).
  rewrite Hkey. apply lookup_singleton_eq.
Defined.

End LoginOutcomes.

(** ** What the webhook runs *)

Module WebhookTrace.

Import Serve StrFacts HmacFacts PathFacts WebhookSpec WebhookFacts.

Lemma truthy_true_ne (s : string) : truthy s = true -> s <> "".
Proof. destruct s; [discriminate | discriminate]. Qed.

Lemma expected_signature_prefix config payload :
  startswith (expected_signature config payload) "sha256=" = true.
Proof. unfold expected_signature. now apply startswith_append_l. Qed.

Lemma redeploy_starts_with_fetch config w :
  In (Ran (fetch_argv config)) (snd (redeploy config w [])).
Proof.
  rewrite redeploy_cases.
  destruct (run_result w (fetch_argv config)) as [rc err|e]; [|simpl; auto].
  destruct (rc =? 0)%Z; [|simpl; auto].
  destruct (run_result w (reset_argv config)) as [rc' err'|e']; [|simpl; auto].
  destruct (rc' =? 0)%Z; [|simpl; auto].
  destruct (popen_result w _); simpl; auto.
Qed.

Lemma redeploy_not_raise config w log (e : exn) : fst (redeploy config w log) <> Raise e.
Proof.
  rewrite redeploy_cases.
  destruct (run_result w (fetch_argv config)) as [rc err|e1]; [|discriminate].
  destruct (rc =? 0)%Z; [|discriminate].
  destruct (run_result w (reset_argv config)) as [rc' err'|e2]; [|discriminate].
  destruct (rc' =? 0)%Z; [|discriminate].
  destruct (popen_result w _); discriminate.
Qed.

(** X9. [redeploy] never raises: whatever the commands do (a non-zero exit,
    a timeout, a program that cannot be started), the answer is a response,
    200 on success and 500 otherwise. *)
Theorem redeploy_never_raises config w log :
  exists resp,
    fst (redeploy config w log) = Ok resp /\ (status resp = 200%Z \/ status resp = 500%Z).
Proof.
  rewrite redeploy_cases.
  destruct (run_result w (fetch_argv config)) as [rc err|e]; [|simpl; eauto].
  destruct (rc =? 0)%Z; [|simpl; eauto].
  destruct (run_result w (reset_argv config)) as [rc' err'|e']; [|simpl; eauto].
  destruct (rc' =? 0)%Z; [|simpl; eauto].
  destruct (popen_result w _); simpl; eauto.
Qed.

(** X10. [git fetch] is run exactly when the secret and the repository
    directory are configured and the signature header equals ["sha256="]
    followed by the HMAC-SHA256 of the raw body: no other request makes the
    handler run a command. *)
Theorem fetch_runs_iff_signed config w request :
  In (Ran (fetch_argv config)) (snd (webhook config w request [])) <->
  webhook_secret config <> "" /\ repo_dir config <> "" /\
  signature_header request = expected_signature config (body request).
Proof.
  split.
  - unfold webhook, bind, lift.
    destruct (truthy (webhook_secret config)) eqn:Hsecret;
      destruct (truthy (repo_dir config)) eqn:Hrepo;
      destruct (startswith (signature_header request) "sha256=");
      destruct (Hmac.compare_digest _ _) as [[|]|e] eqn:E;
      cbn [negb orb fst snd ret In].
    2-24: intros [].
    intros _. apply compare_digest_true in E.
    repeat split; [now apply truthy_true_ne | now apply truthy_true_ne | exact E].
  - intros (Hsecret%truthy_ne & Hrepo%truthy_ne & Hsig). unfold webhook.
    rewrite Hsecret, Hrepo, Hsig, expected_signature_prefix. cbn [negb orb].
    unfold bind, lift.
    rewrite compare_digest_ascii by apply expected_signature_ascii.
    rewrite String.eqb_refl. cbn [negb]. apply redeploy_starts_with_fetch.
Qed.

(** X11. [webhook] raises in one case only: it is configured, the
    signature header starts with ["sha256="] and holds a non-ASCII
    character. Then nothing was run. In every other case it returns a
    response. *)
Theorem webhook_raises_iff config w request (e : exn) :
  fst (webhook config w request []) = Raise e <->
  e = TypeError "comparing strings with non-ASCII characters is not supported" /\
  webhook_secret config <> "" /\ repo_dir config <> "" /\
  startswith (signature_header request) "sha256=" = true /\
  isascii (signature_header request) = false /\
  snd (webhook config w request []) = [].
Proof.
  unfold webhook.
  destruct (truthy (webhook_secret config)) eqn:Hsecret; cbn [negb orb].
  2:{ apply truthy_false in Hsecret. split; [discriminate | tauto]. }
  destruct (truthy (repo_dir config)) eqn:Hrepo; cbn [negb orb].
  2:{ apply truthy_false in Hrepo. split; [discriminate | tauto]. }
  apply truthy_true_ne in Hsecret, Hrepo.
  destruct (startswith (signature_header request) "sha256="); cbn [negb].
  2:{ split; [discriminate | intros (_ & _ & _ & H & _); discriminate]. }
  unfold bind, lift, Hmac.compare_digest.
  rewrite expected_signature_ascii, andb_true_r.
  destruct (isascii (signature_header request)).
  - split; [|intros (_ & _ & _ & _ & H & _); discriminate].
    destruct (Hmac.tscmp _ _); cbn [negb]; [|discriminate].
    intros H. now apply redeploy_not_raise in H.
  - split; [intros [= <-]; tauto | intros [-> _]; reflexivity].
Qed.

(** X12. The commands come in one order: [git fetch], then [git reset],
    then the restart script, each only after the one before it; and
    [git reset] is run only after [git fetch] exited with 0. *)
Theorem commands_run_in_order config w request :
  let events := snd (webhook config w request []) in
  (events = [] \/
   events = [Ran (fetch_argv config)] \/
   events = [Ran (fetch_argv config); Ran (reset_argv config)] \/
   events = [Ran (fetch_argv config); Ran (reset_argv config);
             Spawned [start_script config]]) /\
  (In (Ran (reset_argv config)) events ->
   exists err, run_result w (fetch_argv config) = Exited 0 err).
Proof.
  intros events. subst events.
  destruct (webhook_gate config w request []) as [-> | [-> _]];
    [|split; [now left | contradiction]].
  rewrite redeploy_cases.
  destruct (run_result w (fetch_argv config)) as [rc err|e].
  - destruct (Z.eqb_spec rc 0) as [->|_].
    + split; [|eauto].
      destruct (run_result w (reset_argv config)) as [rc' err'|e']; [|simpl; auto].
      destruct (rc' =? 0)%Z; [|simpl; auto].
      destruct (popen_result w _); simpl; auto.
    + split; [simpl; auto|]. simpl. intros [H|[]]. discriminate.
  - split; [simpl; auto|]. simpl. intros [H|[]]. discriminate.
Qed.

(** With [git reset] failing, the two git commands were run and fetch had
    exited with 0. *)
Lemma commands_run_in_order_witness :
  exists err,
    run_result Examples.world_reset_fails (fetch_argv Examples.config) = Exited 0 err.
Proof.
  apply (commands_run_in_order Examples.config Examples.world_reset_fails
           (Examples.post (Some Examples.good_header) Examples.payload None)).
  vm_compute. auto.
Defined.

End WebhookTrace.

(** ** The sandbox *)

Module SandboxFacts.

Import OsPath Serve StrFacts PathFacts ListingSpec FsFacts CoverageSpec.

Lemma truthy_append_l (a b : string) : truthy a = true -> truthy (a ++ b) = true.
Proof. destruct a; [discriminate | reflexivity]. Qed.

Lemma contains_truthy (sub s : string) :
  truthy sub = true -> contains sub s = true -> truthy s = true.
Proof. destruct sub; [discriminate|]. destruct s; [discriminate | reflexivity]. Qed.

Lemma split_parts_no_sep (c : ascii) (s x : string) :
  In x (split c s) -> contains (String c "") x = false.
Proof.
  revert x. induction s as [|a s IH]; intros x; simpl.
  - intros [<-|[]]. reflexivity.
  - destruct (Ascii.eqb a c) eqn:Ha.
    + intros [<-|H]; [reflexivity | now apply IH].
    + destruct (split c s) as [|y ys].
      * intros [<-|[]]. now rewrite contains_char_cons, Ha.
      * intros [<-|H].
        -- rewrite contains_char_cons, Ha. apply IH. now left.
        -- apply IH. now right.
Qed.

Lemma normpath_step_plain (rooted : bool) (stack : list string) (c : string) :
  Forall (fun x => plain x \/ x = "..") stack -> contains "/" c = false ->
  Forall (fun x => plain x \/ x = "..") (normpath_step rooted stack c).
Proof.
  intros Hstack Hc. unfold normpath_step.
  destruct (String.eqb_spec c "") as [->|Hne]; [exact Hstack|].
  destruct (String.eqb_spec c ".") as [->|Hnd]; [exact Hstack|]. simpl.
  destruct (negb (String.eqb c "..") || _ || _).
  - constructor; [|exact Hstack]. left. repeat split; auto. now destruct c.
  - destruct stack; [constructor | now inversion Hstack].
Qed.

Lemma normpath_fold_plain (rooted : bool) (comps stack : list string) :
  Forall (fun x => plain x \/ x = "..") stack ->
  Forall (fun c => contains "/" c = false) comps ->
  Forall (fun x => plain x \/ x = "..") (fold_left (normpath_step rooted) comps stack).
Proof.
  revert stack. induction comps as [|c comps IH]; intros stack Hstack Hcomps; [exact Hstack|].
  inversion Hcomps; subst. simpl. apply IH; [now apply normpath_step_plain | assumption].
Qed.

Lemma kept_components_plain (path : string) :
  Forall (fun x => plain x \/ x = "..") (kept_components path).
Proof.
  unfold kept_components. apply Forall_rev, normpath_fold_plain; [constructor|].
  apply Forall_forall. intros c Hc. exact (split_parts_no_sep _ _ _ Hc).
Qed.

(** [normpath] of a relative path is its kept components joined, or ["."]. *)
Lemma normpath_relative (path : string) :
  normpath (lstrip "/" path) =
  if truthy (PyStr.join "/" (kept_components path))
  then PyStr.join "/" (kept_components path) else ".".
Proof.
  unfold normpath, kept_components.
  destruct (truthy (lstrip "/" path)) eqn:Hp.
  - unfold initial_slashes. rewrite lstrip_not_startswith. now rewrite append_nil_l.
  - apply truthy_false in Hp. now rewrite Hp.
Qed.

Lemma truthy_join_cons (x : string) (l : list string) :
  truthy x = true -> truthy (PyStr.join "/" (x :: l)) = true.
Proof. intros Hx. destruct l; [exact Hx | now apply truthy_append_l]. Qed.

(** A path that is not answered 403 keeps entry names only. *)
Lemma kept_components_valid (path : string) :
  contains ".." (normpath (lstrip "/" path)) = false ->
  Forall (fun c => valid_name c = true) (kept_components path).
Proof.
  intros Hsafe. pose proof (kept_components_plain path) as Hplain.
  rewrite normpath_relative in Hsafe.
  apply Forall_forall. intros c Hc.
  destruct (contains ".." c) eqn:Hdd.
  - pose proof (contains_join ".." "/" c _ Hc Hdd) as Hjoin.
    rewrite (contains_truthy ".." _ eq_refl Hjoin) in Hsafe. congruence.
  - destruct (proj1 (Forall_forall _ _) Hplain c Hc) as [(Ht & Hs & Hd)| ->];
      [|discriminate].
    unfold valid_name. rewrite Ht, Hs. simpl.
    apply String.eqb_neq in Hd. rewrite Hd. simpl.
    destruct (String.eqb_spec c "..") as [->|_]; [discriminate | reflexivity].
Qed.

Lemma valid_name_inv (c : string) :
  valid_name c = true ->
  truthy c = true /\ contains "/" c = false /\
  String.eqb c "." = false /\ String.eqb c ".." = false.
Proof.
  unfold valid_name. intros H.
  apply andb_prop in H as [H Hdd]. apply andb_prop in H as [H Hd].
  apply andb_prop in H as [Ht Hs].
  apply negb_true_iff in Hs, Hd, Hdd. auto.
Qed.

Lemma split_join (names : list string) :
  names <> [] -> Forall (fun c => valid_name c = true) names ->
  split "/" (PyStr.join "/" names) = names.
Proof.
  induction names as [|x l IH]; [congruence|]. intros _ Hvalid.
  inversion Hvalid as [|? ? Hx Hl]; subst.
  apply valid_name_inv in Hx as (_ & Hs & _).
  destruct l as [|y l]; [now apply split_no_sep|].
  change (PyStr.join "/" (x :: y :: l)) with (x ++ String "/" (PyStr.join "/" (y :: l))).
  rewrite split_append, (split_no_sep _ _ Hs), IH; [reflexivity | discriminate | exact Hl].
Qed.

Lemma join_relative (names : list string) :
  Forall (fun c => valid_name c = true) names ->
  startswith (PyStr.join "/" names) "/" = false.
Proof.
  destruct names as [|x l]; [reflexivity|]. intros Hvalid.
  inversion Hvalid as [|? ? Hx Hl]; subst.
  apply valid_name_inv in Hx as (Ht & Hs & _).
  destruct l as [|y l]; [now apply not_startswith_sep|].
  change (PyStr.join "/" (x :: y :: l)) with (x ++ String "/" (PyStr.join "/" (y :: l))).
  rewrite startswith_append by exact Ht. now apply not_startswith_sep.
Qed.

(** Resolving [os.path.join(a, e)] for a relative [e] is resolving [a] and
    then the components of [e]. *)
Lemma walk_join_path (fs : filesystem) (a e : string) (anc : list node) (cur : node) :
  truthy a = true -> startswith e "/" = false ->
  walk [] (root fs) (components fs a) = Some (anc, cur) ->
  walk [] (root fs) (components fs (OsPath.join a [e])) = walk anc cur (split "/" e).
Proof.
  intros Ha He Hwalk. unfold OsPath.join. simpl fold_left. unfold join_step.
  rewrite He, Ha. cbn [negb orb].
  destruct (endswith a "/") eqn:Hend.
  - destruct (endswith_inv _ _ Hend) as [a' ->].
    rewrite append_assoc. change ("/" ++ e) with (String "/" e).
    unfold components in *.
    rewrite (startswith_sep_append a' e "").
    rewrite split_append.
    change "/"%string with (String "/" "") in Hwalk at 2.
    rewrite split_append in Hwalk. simpl (split "/" "") in Hwalk.
    rewrite app_assoc, walk_app in Hwalk. rewrite app_assoc, walk_app.
    destruct (walk [] (root fs) _) as [[anc1 cur1]|]; [|discriminate].
    apply walk_empty_component in Hwalk as [-> ->]. reflexivity.
  - change (a ++ "/" ++ e) with (a ++ String "/" e).
    unfold components in *. rewrite startswith_append by exact Ha.
    rewrite split_append, app_assoc, walk_app, Hwalk. reflexivity.
Qed.

Lemma walk_descend (names : list string) (anc : list node) (cur : node) :
  Forall (fun c => valid_name c = true) names ->
  match walk anc cur names with
  | Some (_, n) => Some n
  | None => None
  end = descend cur names.
Proof.
  revert anc cur. induction names as [|c r IH]; intros anc cur Hvalid; [reflexivity|].
  inversion Hvalid as [|? ? Hc Hr]; subst.
  apply valid_name_inv in Hc as (Ht & _ & Hd & Hdd).
  simpl. destruct cur as [| |entries]; try reflexivity.
  destruct c as [|x c]; [discriminate|].
  change (String.eqb (String x c) "") with false. rewrite Hd, Hdd. simpl.
  destruct (child (String x c) entries); [now apply IH | reflexivity].
Qed.

(** What [serve_files] hands to the file system is reached from the
    sandbox root by going down through the kept components. *)
Lemma full_path_descends config fs path entries :
  lookup fs (data_dir config) = Some (Dir entries) ->
  contains ".." (normpath (lstrip "/" path)) = false ->
  lookup fs (full_path_of config (normpath (lstrip "/" path))) =
  descend (Dir entries) (kept_components path).
Proof.
  intros Hroot Hsafe. pose proof (kept_components_valid path Hsafe) as Hvalid.
  rewrite normpath_relative.
  destruct (kept_components path) as [|x l] eqn:Hnames.
  - simpl. unfold full_path_of. simpl truthy. cbv iota. now apply lookup_join_dot.
  - assert (truthy x = true) as Hx
      by (inversion Hvalid as [|? ? Hc _]; now apply valid_name_inv in Hc).
    rewrite (truthy_join_cons x l Hx).
    unfold full_path_of. rewrite (truthy_join_cons x l Hx).
    destruct (lookup_dir_inv _ _ _ Hroot) as (Ha & anc & Hwalk).
    unfold lookup. rewrite FsFacts.truthy_join by exact (truthy_join_cons x l Hx).
    rewrite (walk_join_path fs _ _ anc (Dir entries) Ha (join_relative _ Hvalid) Hwalk).
    rewrite split_join by (discriminate || exact Hvalid).
    now apply walk_descend.
Qed.

(** X13. With the sandbox root a directory, every file [resolve] serves
    and every directory it lists is reached from the root by going down
    through entry names only: no component is empty, ["."] or [".."], and
    none contains a separator, so nothing outside the root is served. *)
Theorem served_inside_sandbox config fs path entries :
  lookup fs (data_dir config) = Some (Dir entries) ->
  (forall p, resolve config fs path = Ok (FileResponse p) ->
     Forall (fun c => valid_name c = true) (kept_components path) /\
     descend (Dir entries) (kept_components path) = Some File) /\
  (forall html, resolve config fs path = Ok (HTMLResponse html) ->
     Forall (fun c => valid_name c = true) (kept_components path) /\
     exists sub, descend (Dir entries) (kept_components path) = Some (Dir sub)).
Proof.
  intros Hroot. unfold resolve.
  destruct (contains ".." (normpath (lstrip "/" path))) eqn:Hsafe;
    [split; intros ? [=]|].
  pose proof (full_path_descends config fs path entries Hroot Hsafe) as Hfull.
  pose proof (kept_components_valid path Hsafe) as Hvalid.
  unfold isdir, isfile, listdir. rewrite Hfull.
  destruct (descend (Dir entries) (kept_components path)) as [[| |sub]|];
    simpl; split; intros ? [=]; eauto.
Qed.

(** The file [/srv/data/a/x] of the example. *)
Lemma served_inside_sandbox_witness :
  Forall (fun c => valid_name c = true) (kept_components "/a/x") /\
  descend (Dir Examples.data_entries) (kept_components "/a/x") = Some File.
Proof.
  apply (proj1 (served_inside_sandbox Examples.config Examples.fs "/a/x"
                  Examples.data_entries eq_refl) "/srv/data/a/x").
  vm_compute. reflexivity.
Defined.

(** *** The links of a listing *)

Lemma fold_skip_empty (k : nat) (l st : list string) :
  fold_left (normpath_step false) (l ++ repeat "" k)%list st =
  fold_left (normpath_step false) l st.
Proof.
  rewrite fold_left_app. generalize (fold_left (normpath_step false) l st) as st'.
  induction k as [|k IH]; intros st'; [reflexivity | exact (IH st')].
Qed.

Lemma split_cons (c a : ascii) (r : string) :
  split c (String a r) =
  if Ascii.eqb a c then "" :: split c r
  else match split c r with
       | x :: xs => String a x :: xs
       | [] => [String a ""]
       end.
Proof. reflexivity. Qed.

Lemma split_rstrip (s : string) :
  exists k, split "/" s = (split "/" (rstrip "/" s) ++ repeat "" k)%list.
Proof.
  induction s as [|a s [k IH]]; [now exists 0%nat|].
  cbn [rstrip]. destruct (rstrip "/" s) as [|b r] eqn:Hr.
  - destruct (Ascii.eqb a "/") eqn:Ha.
    + exists (S k). rewrite split_cons, Ha, IH. reflexivity.
    + exists k. rewrite !split_cons, Ha, IH. reflexivity.
  - exists k. rewrite (split_cons _ a s), (split_cons _ a (String b r)), IH.
    destruct (Ascii.eqb a "/"); [reflexivity|].
    destruct (split_nonempty "/" (String b r)) as (x & xs & ->). reflexivity.
Qed.

Lemma fold_lstrip (s : string) :
  fold_left (normpath_step false) (split "/" (lstrip "/" s)) [] =
  fold_left (normpath_step false) (split "/" s) [].
Proof.
  induction s as [|a s IH]; [reflexivity|].
  cbn [lstrip]. destruct (Ascii.eqb a "/") eqn:Ha; [|reflexivity].
  rewrite (split_cons _ a s), Ha. exact IH.
Qed.

Lemma fold_rstrip (s : string) :
  fold_left (normpath_step false) (split "/" (rstrip "/" s)) [] =
  fold_left (normpath_step false) (split "/" s) [].
Proof.
  destruct (split_rstrip s) as [k ->]. now rewrite fold_skip_empty.
Qed.

Lemma normpath_step_valid (stack : list string) (e : string) :
  valid_name e = true -> normpath_step false stack e = e :: stack.
Proof.
  intros (Ht & _ & Hd & Hdd)%valid_name_inv. unfold normpath_step.
  destruct e; [discriminate|].
  change (String.eqb (String a e) "") with false. now rewrite Hd, Hdd.
Qed.

(** The link of an entry keeps the components of the listed path and the
    entry's name after them. *)
Lemma kept_components_link (path e : string) :
  valid_name e = true ->
  kept_components (file_link path e) = (kept_components path ++ [e])%list /\
  kept_components (dir_link path e) = (kept_components path ++ [e])%list.
Proof.
  intros Hvalid. pose proof (valid_name_inv _ Hvalid) as (_ & Hs & _).
  unfold kept_components, file_link, dir_link.
  rewrite !fold_lstrip.
  change ("/" ++ e ++ "/") with (String "/" (e ++ String "/" "")).
  change ("/" ++ e) with (String "/" e).
  rewrite !split_append, (split_no_sep _ _ Hs). simpl (split "/" "").
  rewrite !fold_left_app, fold_rstrip. simpl.
  rewrite (normpath_step_valid _ _ Hvalid). simpl. auto.
Qed.

Lemma kept_dotdot_forbidden (path c : string) :
  In c (kept_components path) -> contains ".." c = true ->
  contains ".." (normpath (lstrip "/" path)) = true.
Proof.
  intros Hc Hdd. rewrite normpath_relative.
  pose proof (contains_join ".." "/" c _ Hc Hdd) as Hjoin.
  now rewrite (contains_truthy ".." _ eq_refl Hjoin).
Qed.

Lemma file_item_link (path f : string) :
  file_item path f =
  "<li><a href=" ++ dquote ++ file_link path f ++ dquote ++ ">" ++ f ++ "</a></li>".
Proof. unfold file_item, file_link. now rewrite !append_assoc. Qed.

Lemma dir_item_link (path d : string) :
  dir_item path d =
  "<li><a href=" ++ dquote ++ dir_link path d ++ dquote ++ ">" ++ d ++ "/</a></li>".
Proof. unfold dir_item, dir_link. now rewrite !append_assoc. Qed.

(** X14. An entry whose name contains [".."] (such as [notes..txt]) is
    listed like any other, but the link the listing gives to it is answered
    403, whether it is a file or a directory: the traversal check rejects
    the name itself. *)
Theorem dotdot_named_entry_forbidden config fs path e :
  valid_name e = true -> contains ".." e = true ->
  (file_item path e =
     "<li><a href=" ++ dquote ++ file_link path e ++ dquote ++ ">" ++ e ++ "</a></li>" /\
   resolve config fs (file_link path e) = Ok (Response "Forbidden" 403)) /\
  (dir_item path e =
     "<li><a href=" ++ dquote ++ dir_link path e ++ dquote ++ ">" ++ e ++ "/</a></li>" /\
   resolve config fs (dir_link path e) = Ok (Response "Forbidden" 403)).
Proof.
  intros Hvalid Hdd. destruct (kept_components_link path e Hvalid) as [Hfile Hdir].
  split; (split; [apply file_item_link || apply dir_item_link|]);
    apply ServeFacts.resolve_forbidden, (kept_dotdot_forbidden _ e); try exact Hdd.
  - rewrite Hfile. apply in_or_app. right. now left.
  - rewrite Hdir. apply in_or_app. right. now left.
Qed.

(** A file named [notes..txt] in [/a/]. *)
Lemma dotdot_named_entry_forbidden_witness :
  resolve Examples.config Examples.fs "/a/notes..txt" = Ok (Response "Forbidden" 403).
Proof.
  apply (dotdot_named_entry_forbidden Examples.config Examples.fs "/a/" "notes..txt");
    reflexivity.
Defined.

Lemma kept_components_no_dotdot (path : string) :
  contains ".." (normpath (lstrip "/" path)) = false ->
  Forall (fun c => contains ".." c = false) (kept_components path).
Proof.
  intros Hsafe. rewrite normpath_relative in Hsafe.
  apply Forall_forall. intros c Hc.
  destruct (contains ".." c) eqn:Hdd; [|reflexivity].
  pose proof (contains_join ".." "/" c _ Hc Hdd) as Hjoin.
  rewrite (contains_truthy ".." _ eq_refl Hjoin) in Hsafe. congruence.
Qed.

Lemma no_dotdot_across_sep (a b : string) :
  contains ".." a = false -> contains ".." b = false ->
  contains ".." (a ++ String "/" b) = false.
Proof.
  intros Ha Hb. induction a as [|x a IH].
  - rewrite append_nil_l, contains_cons, Hb. reflexivity.
  - rewrite contains_cons in Ha. apply orb_false_elim in Ha as [Hx Ha].
    rewrite append_cons, contains_cons, (IH Ha), orb_false_r.
    destruct a as [|y a]; [|exact Hx].
    rewrite append_nil_l. cbn [startswith]. apply andb_false_r.
Qed.

Lemma join_no_dotdot (names : list string) :
  Forall (fun c => contains ".." c = false) names ->
  contains ".." (PyStr.join "/" names) = false.
Proof.
  induction 1 as [|x l Hx Hl IH]; [reflexivity|].
  destruct l as [|y l]; [exact Hx|].
  change (PyStr.join "/" (x :: y :: l)) with (x ++ String "/" (PyStr.join "/" (y :: l))).
  now apply no_dotdot_across_sep.
Qed.

Lemma descend_app (n : node) (l1 l2 : list string) :
  descend n (l1 ++ l2)%list =
  match descend n l1 with
  | Some m => descend m l2
  | None => None
  end.
Proof.
  revert n. induction l1 as [|c l1 IH]; intros n; [reflexivity|].
  simpl. destruct n as [| |entries]; try reflexivity.
  destruct (child c entries); [apply IH | reflexivity].
Qed.

(** A link made of a listed path and a name without [".."] passes the
    traversal check and leads to the entry of that name. *)
Lemma link_lookup config fs path top entries e link :
  lookup fs (data_dir config) = Some (Dir top) ->
  contains ".." (normpath (lstrip "/" path)) = false ->
  lookup fs (full_path_of config (normpath (lstrip "/" path))) = Some (Dir entries) ->
  contains ".." e = false ->
  kept_components link = (kept_components path ++ [e])%list ->
  contains ".." (normpath (lstrip "/" link)) = false /\
  lookup fs (full_path_of config (normpath (lstrip "/" link))) = child e entries.
Proof.
  intros Hroot Hsafe Hdir Hdd Hlink.
  assert (contains ".." (normpath (lstrip "/" link)) = false) as Hsafe'.
  { rewrite normpath_relative, Hlink.
    destruct (truthy _); [|reflexivity].
    apply join_no_dotdot, Forall_app. split; [now apply kept_components_no_dotdot|].
    now constructor. }
  split; [exact Hsafe'|].
  rewrite (full_path_descends config fs link top Hroot Hsafe'), Hlink, descend_app.
  rewrite <- (full_path_descends config fs path top Hroot Hsafe), Hdir.
  simpl. now destruct (child e entries).
Qed.

(** X15. The links of a listing lead where the listing says: for a listed
    path and an entry of its directory whose name has no [".."], the file
    link is answered with that file, and the directory link with the
    listing of that subdirectory. *)
Theorem listing_links_resolve config fs path top entries e :
  lookup fs (data_dir config) = Some (Dir top) ->
  contains ".." (normpath (lstrip "/" path)) = false ->
  lookup fs (full_path_of config (normpath (lstrip "/" path))) = Some (Dir entries) ->
  valid_name e = true -> contains ".." e = false ->
  (child e entries = Some File ->
     exists p, resolve config fs (file_link path e) = Ok (FileResponse p) /\
               lookup fs p = Some File) /\
  (forall sub, child e entries = Some (Dir sub) -> well_formed sub = true ->
     lists (dir_link path e) sub (resolve config fs (dir_link path e))).
Proof.
  intros Hroot Hsafe Hdir Hvalid Hdd.
  destruct (kept_components_link path e Hvalid) as [Hfile Hsub].
  split.
  - intros Hchild.
    destruct (link_lookup config fs path top entries e _ Hroot Hsafe Hdir Hdd Hfile)
      as [Hsafe' Hlookup].
    rewrite Hchild in Hlookup. eexists. split; [|exact Hlookup].
    unfold resolve. rewrite Hsafe'. unfold isdir, isfile. now rewrite Hlookup.
  - intros sub Hchild Hwf.
    destruct (link_lookup config fs path top entries e _ Hroot Hsafe Hdir Hdd Hsub)
      as [Hsafe' Hlookup].
    rewrite Hchild in Hlookup. now apply ListingFacts.resolve_lists.
Qed.

(** The entry [x] of the listing of [/a]. *)
Lemma listing_links_resolve_witness :
  exists p, resolve Examples.config Examples.fs "/a/x" = Ok (FileResponse p) /\
            lookup Examples.fs p = Some File.
Proof.
  refine (proj1 (listing_links_resolve Examples.config Examples.fs "/a"
                   Examples.data_entries [("x", File)] "x" _ _ _ _ _) _);
    vm_compute; reflexivity.
Defined.

(** X16. With the sandbox root a directory, [resolve] answers 404 exactly
    for a path that passes the traversal check and leads, below the root,
    to nothing or to an entry that is neither a file nor a directory. *)
Theorem not_found_iff config fs path entries :
  lookup fs (data_dir config) = Some (Dir entries) ->
  resolve config fs path = Ok (Response "Not found" 404) <->
  contains ".." (normpath (lstrip "/" path)) = false /\
  (descend (Dir entries) (kept_components path) = None \/
   descend (Dir entries) (kept_components path) = Some Special).
Proof.
  intros Hroot. unfold resolve.
  destruct (contains ".." (normpath (lstrip "/" path))) eqn:Hsafe.
  - split; [intros [=] | intros [[=] _]].
  - rewrite <- (full_path_descends config fs path entries Hroot Hsafe).
    unfold isdir, isfile, listdir.
    destruct (lookup fs (full_path_of config _)) as [[| |sub]|]; simpl;
      (split; [intros H | intros [_ [H|H]]]); try discriminate; auto.
Qed.

(** The FIFO [/srv/data/pipe] of the example. *)
Lemma not_found_iff_witness :
  resolve Examples.config Examples.fs "/pipe" = Ok (Response "Not found" 404).
Proof.
  apply (not_found_iff Examples.config Examples.fs "/pipe" Examples.data_entries);
    vm_compute; auto.
Defined.

(** X17. Hiding is not access control: a file whose name starts with a dot
    has no item on the page of its directory, and the request for it is
    answered with the file all the same. *)
Theorem hidden_file_served config fs path top entries e :
  lookup fs (data_dir config) = Some (Dir top) ->
  contains ".." (normpath (lstrip "/" path)) = false ->
  lookup fs (full_path_of config (normpath (lstrip "/" path))) = Some (Dir entries) ->
  well_formed entries = true ->
  In (e, File) entries -> hidden e = true -> contains ".." e = false ->
  (exists dirs files,
     resolve config fs path =
       Ok (HTMLResponse
             ("<html><body><h1>" ++ path ++ "</h1><ul>"
              ++ flatten (map (dir_item path) dirs)
              ++ flatten (map (file_item path) files)
              ++ "</ul></body></html>")) /\
     ~ In e dirs /\ ~ In e files) /\
  (exists p, resolve config fs (file_link path e) = Ok (FileResponse p) /\
             lookup fs p = Some File).
Proof.
  intros Hroot Hsafe Hdir Hwf Hin Hhidden Hdd. split.
  - destruct (ListingFacts.resolve_lists config fs path entries Hsafe Hdir Hwf)
      as (dirs & files & Hr & _ & _ & _ & _ & Hd & Hf).
    exists dirs, files. split; [exact Hr|].
    split; intros He; [apply Hd in He as [_ Hh] | apply Hf in He as [_ Hh]]; congruence.
  - pose proof Hwf as [Hnames Hdistinct]%andb_prop.
    assert (valid_name e = true) as Hvalid
      by exact (proj1 (forallb_forall _ _) Hnames (e, File) Hin).
    pose proof (ListingFacts.child_unique e File entries Hdistinct Hin) as Hchild.
    destruct (kept_components_link path e Hvalid) as [Hfile _].
    destruct (link_lookup config fs path top entries e _ Hroot Hsafe Hdir Hdd Hfile)
      as [Hsafe' Hlookup].
    rewrite Hchild in Hlookup. eexists. split; [|exact Hlookup].
    unfold resolve. rewrite Hsafe'. unfold isdir, isfile. now rewrite Hlookup.
Qed.

(** The file [.hid] of [/srv/data]. *)
Lemma hidden_file_served_witness :
  exists p, resolve Examples.config Examples.fs "/.hid" = Ok (FileResponse p) /\
            lookup Examples.fs p = Some File.
Proof.
  refine (proj2 (hidden_file_served Examples.config Examples.fs "/"
                   Examples.data_entries Examples.data_entries ".hid" _ _ _ _ _ _ _));
    try (vm_compute; reflexivity).
  right. left. reflexivity.
Defined.

End SandboxFacts.
